(** * zm_device: the device-registry actor of zmon.it

    A shallow embedding of [src/zm_device.c] and the properties of its
    control-command handler and of its mailbox protocol handler.

    The actor is a CZMQ actor.  It owns a configuration tree, a Malamute
    client, a poller, a decode buffer ([msg]) and a device registry
    ([devices]).  Everything the actor does to the outside (traffic handed to
    the broker client, the registry's backing files) is kept in an explicit
    [world] that is threaded through every function. *)

From Stdlib Require Import ZArith DecimalPos DecimalZ DecimalString.
From stdpp Require Import base option list strings.

Local Open Scope Z_scope.
Local Open Scope string_scope.
Local Open Scope list_scope.

(** ** Results of C functions that may abort the process *)

(** Why the process stopped. *)
Inductive abort :=
  | AssertFalse   (* [assert (false)] *)
  | AssertSelf    (* a method's [assert (self)] on a NULL object *)
  | NullDeref     (* a NULL pointer is read, as in [streq (NULL, ...)] *)
  | OutOfFuel.    (* the bound given to a [while] loop was too small *)

Inductive outcome (A : Type) :=
  | Ret (a : A)
  | Abort (why : abort).
Arguments Ret {A} a.
Arguments Abort {A} why.

Global Instance outcome_ret : MRet outcome := fun A a => Ret a.
Global Instance outcome_bind : MBind outcome := fun A B k m =>
  match m with
  | Ret a => k a
  | Abort why => Abort why
  end.

(** What a method of a collaborating class does when it is handed a NULL
    object.  The collaborators (zm_proto, zm_devices, mlm_client, zpoller) are
    not defined in [zm_device.c]; every function of [zm_device.c] itself opens
    with [assert (self)], which is the convention of CZMQ classes. *)
Inductive null_self :=
  | NullAsserts   (* [assert (self)]: the process aborts *)
  | NullIgnored.  (* the call does nothing *)

(** ** The protocol message, [zm_proto_t] *)

Inductive zm_proto_id :=
  | ZM_PROTO_DEVICE
  | ZM_PROTO_OK
  | ZM_PROTO_ERROR
  | ZM_PROTO_OTHER.   (* any other kind the codec knows *)

(** The fields [zm_device.c] reads or writes through the codec: the kind, the
    device name, the two attributes given to [zm_proto_encode_device_v1], the
    annotation dictionary [ext] and the code and text of an error. *)
Record zm_proto_t := {
  id : zm_proto_id;
  device : string;
  time : Z;
  ttl : Z;
  ext : list (string * string);
  code : Z;
  description : string
}.

Global Instance zm_proto_id_eq_dec : EqDecision zm_proto_id.
Proof. solve_decision. Defined.
Global Instance zm_proto_t_eq_dec : EqDecision zm_proto_t.
Proof. solve_decision. Defined.

Definition zm_proto_new : zm_proto_t :=
  {| id := ZM_PROTO_OTHER; device := ""; time := 0; ttl := 0; ext := [];
     code := 0; description := "" |}.

Definition zm_proto_device (m : zm_proto_t) : string := device m.

(** Modelled from the spec: [zm_proto_encode_ok] is not in [zm_device.c];
    the reply becomes "an OK status". *)
Definition zm_proto_encode_ok (m : zm_proto_t) : zm_proto_t :=
  {| id := ZM_PROTO_OK; device := device m; time := time m; ttl := ttl m;
     ext := ext m; code := code m; description := description m |}.

(** Modelled from the spec: [zm_proto_encode_error] is not in [zm_device.c];
    the reply becomes "an error status carrying a numeric code and
    human-readable text". *)
Definition zm_proto_encode_error (m : zm_proto_t) (c : Z) (text : string)
  : zm_proto_t :=
  {| id := ZM_PROTO_ERROR; device := device m; time := time m; ttl := ttl m;
     ext := ext m; code := c; description := text |}.

(** The annotation dictionary maps a key to a string; an update replaces the
    value of a key that is present and adds the key otherwise. *)
Fixpoint ext_update (k v : string) (e : list (string * string))
  : list (string * string) :=
  match e with
  | [] => [(k, v)]
  | (k', v') :: e' =>
      if decide (k' = k) then (k, v) :: e' else (k', v') :: ext_update k v e'
  end.

Fixpoint ext_lookup (k : string) (e : list (string * string)) : option string :=
  match e with
  | [] => None
  | (k', v') :: e' => if decide (k' = k) then Some v' else ext_lookup k e'
  end.

Definition string_of_Z (z : Z) : string := NilZero.string_of_int (Z.to_int z).

Definition Z_of_string (s : string) : option Z :=
  Z.of_int <$> NilZero.int_of_string s.

(** [zm_proto_ext_set_int (self, key, value)] on a message that exists. *)
Definition ext_set_int (k : string) (v : Z) (m : zm_proto_t) : zm_proto_t :=
  {| id := id m; device := device m; time := time m; ttl := ttl m;
     ext := ext_update k (string_of_Z v) (ext m);
     code := code m; description := description m |}.

(** [zm_proto_ext_int (self, key, default)], as the self test reads [_seq]
    and [_cnt]. *)
Definition zm_proto_ext_int (m : zm_proto_t) (k : string) (dflt : Z) : Z :=
  match ext_lookup k (ext m) ≫= Z_of_string with
  | Some z => z
  | None => dflt
  end.

(** ** The configuration tree, [zconfig_t] *)

Local Unset Elimination Schemes.
Inductive zconfig_t :=
  | ZConfig (name : string) (value : option string) (children : list zconfig_t).
Local Set Elimination Schemes.

Definition zconfig_name (c : zconfig_t) : string :=
  match c with ZConfig n _ _ => n end.
Definition zconfig_value (c : zconfig_t) : option string :=
  match c with ZConfig _ v _ => v end.
Definition zconfig_children (c : zconfig_t) : list zconfig_t :=
  match c with ZConfig _ _ l => l end.

(** A path such as "malamute/endpoint" is given by its components. *)
Fixpoint zconfig_locate (c : zconfig_t) (path : list string) : option zconfig_t :=
  match path with
  | [] => Some c
  | n :: path' =>
      match find (fun k => bool_decide (zconfig_name k = n)) (zconfig_children c) with
      | Some k => zconfig_locate k path'
      | None => None
      end
  end.

(** [zconfig_resolve (self, path, NULL)] *)
Definition zconfig_resolve (c : zconfig_t) (path : list string) : option string :=
  zconfig_locate c path ≫= zconfig_value.

(** ** The broker client, [mlm_client_t] *)

Record mlm_client_t := {
  connection : option (string * string);     (* endpoint and address *)
  producer : option string;
  consumer : list (string * string);         (* stream and pattern *)
  mlm_client_command : string;               (* of the last message received *)
  mlm_client_sender : string;
  mlm_client_subject : string
}.

Definition mlm_client_new : mlm_client_t :=
  {| connection := None; producer := None; consumer := [];
     mlm_client_command := ""; mlm_client_sender := ""; mlm_client_subject := "" |}.

(** What the broker delivers: the delivery kind, the sender, the subject and
    the content, [None] when the frames do not decode ([zm_proto_recv]
    returns non-zero). *)
Record delivery := {
  d_command : string;
  d_sender : string;
  d_subject : string;
  d_content : option zm_proto_t
}.

(** [mlm_client_recv]: the client remembers the delivery kind, the sender
    and the subject of the message it hands over. *)
Definition mlm_client_recv (c : mlm_client_t) (d : delivery) : mlm_client_t :=
  {| connection := connection c; producer := producer c;
     consumer := consumer c;
     mlm_client_command := d_command d;
     mlm_client_sender := d_sender d;
     mlm_client_subject := d_subject d |}.

(** ** The device registry, [zm_devices_t] *)

(** Modelled from the spec: the class zm_devices is not in [zm_device.c].  It
    is a "key-value store of device records keyed by name, with an optional
    backing file"; [zm_devices_first] and [zm_devices_next] walk the records
    "in Registry-defined order" and return the stored record itself, so a
    change made through the returned pointer is a change of the registry. *)
Record zm_devices_t := {
  file : option string;
  items : list zm_proto_t;
  cursor : nat
}.

Fixpoint upsert (m : zm_proto_t) (l : list zm_proto_t) : list zm_proto_t :=
  match l with
  | [] => [m]
  | x :: l' =>
      if decide (device x = device m) then m :: l' else x :: upsert m l'
  end.

Fixpoint index_of (name : string) (l : list zm_proto_t) : option nat :=
  match l with
  | [] => None
  | x :: l' => if decide (device x = name) then Some O else S <$> index_of name l'
  end.

Definition remove (name : string) (l : list zm_proto_t) : list zm_proto_t :=
  filter (fun x => device x ≠ name) l.

Definition zm_devices_size (ds : zm_devices_t) : nat := length (items ds).
Definition zm_devices_file (ds : zm_devices_t) : option string := file ds.
Definition zm_devices_set_file (ds : zm_devices_t) (f : string) : zm_devices_t :=
  {| file := Some f; items := items ds; cursor := cursor ds |}.

(** ** The actor *)

Inductive zsock := Pipe | MsgPipe.
Global Instance zsock_eq_dec : EqDecision zsock.
Proof. solve_decision. Defined.

Record zm_device_t := {
  poller : list zsock;
  terminated : bool;
  verbose : bool;
  config : option zconfig_t;
  client : option mlm_client_t;
  consumers : option (list (string * option string));
  msg : zm_proto_t;
  devices : zm_devices_t
}.

(** What the actor did to the registry and handed to the broker client, in
    the order it happened. *)
Inductive event :=
  | DevicesInsert (m : zm_proto_t)
  | DevicesDelete (name : string)
  | DevicesStore (f : option string) (l : list zm_proto_t)
  | DevicesNew (f : option string)
  | ClientConnect (endpoint address : string)
  | ClientSetProducer (stream : string)
  | ClientSetConsumer (stream pattern : string)
  | ClientSend (subject : string) (m : zm_proto_t)             (* broadcast *)
  | ClientSendto (address subject : string) (m : zm_proto_t).  (* point to point *)

(** The actor with its surroundings: the backing files, and the events
    since the actor was created. *)
Record world := {
  self : zm_device_t;
  disk : list (string * list zm_proto_t);
  trace : list event
}.

Definition with_self (f : zm_device_t -> zm_device_t) (w : world) : world :=
  {| self := f (self w); disk := disk w; trace := trace w |}.

Definition log (e : event) (w : world) : world :=
  {| self := self w; disk := disk w; trace := trace w ++ [e] |}.

Definition set_terminated (b : bool) : world -> world :=
  with_self (fun s =>
    {| poller := poller s; terminated := b; verbose := verbose s;
       config := config s; client := client s; consumers := consumers s;
       msg := msg s; devices := devices s |}).

Definition set_verbose (b : bool) : world -> world :=
  with_self (fun s =>
    {| poller := poller s; terminated := terminated s; verbose := b;
       config := config s; client := client s; consumers := consumers s;
       msg := msg s; devices := devices s |}).

Definition set_config (c : option zconfig_t) : world -> world :=
  with_self (fun s =>
    {| poller := poller s; terminated := terminated s; verbose := verbose s;
       config := c; client := client s; consumers := consumers s;
       msg := msg s; devices := devices s |}).

Definition set_client (c : option mlm_client_t) : world -> world :=
  with_self (fun s =>
    {| poller := poller s; terminated := terminated s; verbose := verbose s;
       config := config s; client := c; consumers := consumers s;
       msg := msg s; devices := devices s |}).

Definition set_poller (p : list zsock) : world -> world :=
  with_self (fun s =>
    {| poller := p; terminated := terminated s; verbose := verbose s;
       config := config s; client := client s; consumers := consumers s;
       msg := msg s; devices := devices s |}).

Definition set_consumers (h : option (list (string * option string)))
  : world -> world :=
  with_self (fun s =>
    {| poller := poller s; terminated := terminated s; verbose := verbose s;
       config := config s; client := client s; consumers := h;
       msg := msg s; devices := devices s |}).

Definition set_msg (m : zm_proto_t) : world -> world :=
  with_self (fun s =>
    {| poller := poller s; terminated := terminated s; verbose := verbose s;
       config := config s; client := client s; consumers := consumers s;
       msg := m; devices := devices s |}).

Definition set_devices (ds : zm_devices_t) : world -> world :=
  with_self (fun s =>
    {| poller := poller s; terminated := terminated s; verbose := verbose s;
       config := config s; client := client s; consumers := consumers s;
       msg := msg s; devices := ds |}).

(** *** The registry's operations on the world *)

Fixpoint disk_read (f : string) (d : list (string * list zm_proto_t))
  : list zm_proto_t :=
  match d with
  | [] => []
  | (f', l) :: d' => if decide (f' = f) then l else disk_read f d'
  end.

Fixpoint disk_write (f : string) (l : list zm_proto_t)
  (d : list (string * list zm_proto_t)) : list (string * list zm_proto_t) :=
  match d with
  | [] => [(f, l)]
  | (f', l') :: d' =>
      if decide (f' = f) then (f, l) :: d' else (f', l') :: disk_write f l d'
  end.

(** Modelled from the spec: [zm_devices_new (file)] is not in
    [zm_device.c]; it gives a registry "bound to the new file", "freshly
    constructed from the new backing file": it holds what the file holds, and
    nothing without a file. *)
Definition zm_devices_new (f : option string) (w : world) : zm_devices_t :=
  {| file := f;
     items := match f with Some p => disk_read p (disk w) | None => [] end;
     cursor := O |}.

(** Modelled from the spec: [zm_devices_store (self)] is not in
    [zm_device.c]; the registry is asked to "persist its contents": it writes
    its records to its backing file, when it has one. *)
Definition zm_devices_store (w : world) : world :=
  let ds := devices (self w) in
  log (DevicesStore (file ds) (items ds))
    {| self := self w;
       disk := match file ds with
               | Some p => disk_write p (items ds) (disk w)
               | None => disk w
               end;
       trace := trace w |}.

(** Modelled from the spec: [zm_devices_insert (self, msg)] is not in
    [zm_device.c]; "upsert record into Registry (replace if name exists)".
    The registry owns its records: it keeps a copy of [msg], not the actor's
    buffer. *)
Definition zm_devices_insert (m : zm_proto_t) (w : world) : world :=
  let ds := devices (self w) in
  log (DevicesInsert m)
    (set_devices {| file := file ds; items := upsert m (items ds);
                    cursor := cursor ds |} w).

(** Modelled from the spec: [zm_devices_delete (self, name)] is not in
    [zm_device.c]; "remove from Registry if present (no error if absent)". *)
Definition zm_devices_delete (name : string) (w : world) : world :=
  let ds := devices (self w) in
  log (DevicesDelete name)
    (set_devices {| file := file ds; items := remove name (items ds);
                    cursor := cursor ds |} w).

(** A [zm_proto_t *] the mailbox handler holds is the actor's own buffer
    [self->msg] or a record inside the registry. *)
Inductive msg_ref :=
  | SelfMsg
  | DeviceAt (i : nat).

(** Modelled from the spec: [zm_devices_lookup], [zm_devices_first] and
    [zm_devices_next] are not in [zm_device.c]; a "read-only lookup" by name,
    and the walk over "all records in Registry-defined order".  Each returns
    a pointer to the stored record, or NULL. *)
Definition zm_devices_lookup (name : string) (w : world) : option msg_ref :=
  DeviceAt <$> index_of name (items (devices (self w))).

Definition zm_devices_first (w : world) : option msg_ref * world :=
  let ds := devices (self w) in
  (match items ds with [] => None | _ :: _ => Some (DeviceAt O) end,
   set_devices {| file := file ds; items := items ds; cursor := O |} w).

Definition zm_devices_next (w : world) : option msg_ref * world :=
  let ds := devices (self w) in
  let c := S (cursor ds) in
  (match items ds !! c with None => None | Some _ => Some (DeviceAt c) end,
   set_devices {| file := file ds; items := items ds; cursor := c |} w).

Definition deref (r : msg_ref) (w : world) : outcome zm_proto_t :=
  match r with
  | SelfMsg => Ret (msg (self w))
  | DeviceAt i =>
      match items (devices (self w)) !! i with
      | Some m => Ret m
      | None => Abort NullDeref
      end
  end.

(** A change of the message a pointer points to. *)
Definition modify (r : msg_ref) (f : zm_proto_t -> zm_proto_t) (w : world)
  : world :=
  match r with
  | SelfMsg => set_msg (f (msg (self w))) w
  | DeviceAt i =>
      let ds := devices (self w) in
      set_devices {| file := file ds; items := alter f i (items ds);
                     cursor := cursor ds |} w
  end.

(** *** The poller and the client's message pipe *)

Definition zpoller_new (pipe : zsock) : list zsock := [pipe].

Definition zpoller_add (p : list zsock) (s : zsock) : list zsock := p ++ [s].

Definition zpoller_remove (on_null : null_self) (p : list zsock)
  (s : option zsock) : outcome (list zsock) :=
  match s with
  | Some h => Ret (filter (fun x => x ≠ h) p)
  | None =>
      match on_null with
      | NullAsserts => Abort AssertSelf
      | NullIgnored => Ret p
      end
  end.

Definition mlm_client_msgpipe (on_null : null_self) (c : option mlm_client_t)
  : outcome (option zsock) :=
  match c with
  | Some _ => Ret (Some MsgPipe)
  | None =>
      match on_null with
      | NullAsserts => Abort AssertSelf
      | NullIgnored => Ret None
      end
  end.

(** [zm_proto_ext_set_int (msg, key, value)] through a pointer that may be
    NULL. *)
Definition zm_proto_ext_set_int (on_null : null_self) (r : option msg_ref)
  (k : string) (v : Z) (w : world) : outcome world :=
  match r with
  | Some p => _ ← deref p w; Ret (modify p (ext_set_int k v) w)
  | None =>
      match on_null with
      | NullAsserts => Abort AssertSelf
      | NullIgnored => Ret w
      end
  end.

(** [zm_proto_sendto (msg, client, address, subject)]: the message as it is
    now goes to [address], point to point. *)
Definition zm_proto_sendto (r : msg_ref) (address subject : string) (w : world)
  : outcome world :=
  m ← deref r w; Ret (log (ClientSendto address subject m) w).

(** [zm_proto_send_mlm (msg, client, subject)]: the message as it is now is
    published on the producer stream. *)
Definition zm_proto_send_mlm (r : msg_ref) (subject : string) (w : world)
  : outcome world :=
  m ← deref r w; Ret (log (ClientSend subject m) w).

(** ** The functions of [zm_device.c] *)

Definition zm_device_new (files : list (string * list zm_proto_t)) : world :=
  let w0 := {| self := {| poller := zpoller_new Pipe; terminated := false;
                          verbose := false; config := None; client := None;
                          consumers := None; msg := zm_proto_new;
                          devices := {| file := None; items := []; cursor := O |} |};
               disk := files; trace := [] |} in
  let w1 := set_devices (zm_devices_new None w0) w0 in
  let w2 := set_client (Some mlm_client_new) w1 in
  set_poller (zpoller_add (poller (self w2)) MsgPipe) w2.

Definition zm_device_cfg_endpoint (w : world) : option string :=
  match config (self w) with
  | Some c => zconfig_resolve c ["malamute"; "endpoint"]
  | None => None
  end.

Definition zm_device_cfg_address (w : world) : option string :=
  match config (self w) with
  | Some c => zconfig_resolve c ["malamute"; "address"]
  | None => None
  end.

Definition zm_device_cfg_producer (w : world) : option string :=
  match config (self w) with
  | Some c => zconfig_resolve c ["malamute"; "producer"]
  | None => None
  end.

Definition zm_device_cfg_file (w : world) : option string :=
  match config (self w) with
  | Some c => zconfig_resolve c ["server"; "file"]
  | None => None
  end.

(** [zhash_insert] keeps the first item of a key. *)
Definition zhash_insert (h : list (string * option string)) (k : string)
  (v : option string) : list (string * option string) :=
  if bool_decide (k ∈ h.*1) then h else h ++ [(k, v)].

(** The table of consumers built by [zm_device_cfg_consumer_first]. *)
Definition zm_device_cfg_consumers (w : world) : list (string * option string) :=
  match config (self w) ≫= (fun c => zconfig_locate c ["malamute"; "consumer"]) with
  | Some cfg =>
      foldl (fun h child => zhash_insert h (zconfig_name child) (zconfig_value child))
            [] (zconfig_children cfg)
  | None => []
  end.

(** What [zpoller_wait] returns to the loop of the actor: the command pipe
    is readable (and [zmsg_recv] gives [request], [None] when interrupted),
    the client's message pipe is readable (and [mlm_client_recv] gives [d]),
    or NULL. *)
Inductive wakeup :=
  | OnPipe (request : option (list string))
  | OnBroker (d : delivery)
  | OnNothing.

Section Actor.

(** How a NULL object is received by the collaborators. *)
Variable on_null : null_self.
(** [zconfig_str_load]: the parser of the configuration text. *)
Variable zconfig_str_load : string -> option zconfig_t.
(** Whether the broker accepts a connection, a producer, a consumer. *)
Variable connect_ok : string -> string -> bool.
Variable set_producer_ok : string -> bool.
Variable set_consumer_ok : string -> string -> bool.

Definition with_client (f : mlm_client_t -> mlm_client_t) (w : world) : world :=
  set_client (f <$> client (self w)) w.

(** The loop of [zm_device_connect_to_malamute] over the consumers, from
    [zm_device_cfg_consumer_first] on; a NULL pattern ends it. *)
Fixpoint declare_consumers (h : list (string * option string)) (w : world)
  : Z * world :=
  match h with
  | (stream, Some pattern) :: h' =>
      if set_consumer_ok stream pattern then
        declare_consumers h'
          (log (ClientSetConsumer stream pattern)
             (with_client (fun c =>
                {| connection := connection c; producer := producer c;
                   consumer := consumer c ++ [(stream, pattern)];
                   mlm_client_command := mlm_client_command c;
                   mlm_client_sender := mlm_client_sender c;
                   mlm_client_subject := mlm_client_subject c |}) w))
      else (-1, w)
  | _ => (0, w)
  end.

Definition zm_device_connect_to_malamute (w : world) : Z * world :=
  match config (self w) with
  | None => (-1, w)
  | Some _ =>
  match zm_device_cfg_endpoint w with
  | None => (-1, w)
  | Some endpoint =>
  match zm_device_cfg_address w with
  | None => (-1, w)
  | Some address =>
    let w1 :=
      match client (self w) with
      | None =>
          let w' := set_client (Some mlm_client_new) w in
          set_poller (zpoller_add (poller (self w')) MsgPipe) w'
      | Some _ => w
      end in
    if negb (connect_ok endpoint address) then (-1, w1) else
    let w2 :=
      log (ClientConnect endpoint address)
        (with_client (fun c =>
           {| connection := Some (endpoint, address); producer := producer c;
              consumer := consumer c;
              mlm_client_command := mlm_client_command c;
              mlm_client_sender := mlm_client_sender c;
              mlm_client_subject := mlm_client_subject c |}) w1) in
    let declared :=
      match zm_device_cfg_producer w2 with
      | Some stream =>
          if set_producer_ok stream then
            Some (log (ClientSetProducer stream)
                    (with_client (fun c =>
                       {| connection := connection c; producer := Some stream;
                          consumer := consumer c;
                          mlm_client_command := mlm_client_command c;
                          mlm_client_sender := mlm_client_sender c;
                          mlm_client_subject := mlm_client_subject c |}) w2))
          else None
      | None => Some w2
      end in
    match declared with
    | None => (-1, w2)
    | Some w3 =>
        let h := zm_device_cfg_consumers w3 in
        declare_consumers h (set_consumers (Some h) w3)
    end
  end end end.

Definition zm_device_start (w : world) : Z * world :=
  let '(r, w') := zm_device_connect_to_malamute w in
  if decide (r = -1) then (r, w') else (0, w').

Definition zm_device_stop (w : world) : outcome (Z * world) :=
  h ← mlm_client_msgpipe on_null (client (self w));
  p ← zpoller_remove on_null (poller (self w)) h;
  let w1 := set_poller p w in
  let w2 := set_client None w1 in             (* mlm_client_destroy *)
  let w3 := zm_devices_store w2 in
  Ret (0, w3).

(** [request] is what is left of the command's frames. *)
Definition zm_device_config (w : world) (request : list string)
  : Z * world :=
  match request with
  | str_config :: _ =>
      match zconfig_str_load str_config with
      | Some foo =>
          let w1 := set_config (Some foo) w in
          match zm_device_cfg_file w1 with
          | Some f =>
              let w2 :=
                match zm_devices_file (devices (self w1)) with
                | None =>
                    set_devices (zm_devices_set_file (devices (self w1)) f) w1
                | Some _ => w1
                end in
              let w3 := zm_devices_store w2 in
              let w4 := log (DevicesNew (Some f)) w3 in
              (0, set_devices (zm_devices_new (Some f) w4) w4)
          | None => (0, w1)
          end
      | None => (-1, w)
      end
  | [] => (-1, w)
  end.

(** [request] is the message read from the pipe, [None] when the read was
    interrupted. *)
Definition zm_device_recv_api (w : world) (request : option (list string))
  : outcome world :=
  match request with
  | None => Ret w
  | Some [] => Abort NullDeref                (* streq (NULL, "START") *)
  | Some (command :: request') =>
      if decide (command = "START") then Ret (zm_device_start w).2
      else if decide (command = "STOP") then r ← zm_device_stop w; Ret r.2
      else if decide (command = "VERBOSE") then Ret (set_verbose true w)
      else if decide (command = "$TERM") then Ret (set_terminated true w)
      else if decide (command = "CONFIG") then
        Ret (zm_device_config w request').2
      else Abort AssertFalse
  end.

(** [zm_device_publish (self, device, subject)]: the message is encoded as
    it is now and handed to [mlm_client_send]; the result is not looked
    at by the callers. *)
Definition zm_device_publish (device : msg_ref) (subject : string)
  (w : world) : outcome world :=
  m ← deref device w; Ret (log (ClientSend subject m) w).

(** The loop shared by GET-ALL and PUBLISH-ALL,
    [while (msg) { set _seq to i++; send; msg = zm_devices_next }],
    with the way of sending as [send].  [i] is a [size_t].  [fuel] bounds
    the number of rounds; the handler gives the number of records, which is
    enough ([send_all_spec]). *)
Fixpoint send_all (fuel : nat) (send : msg_ref -> world -> outcome world)
  (m : option msg_ref) (i : Z) (w : world) : outcome world :=
  match m with
  | None => Ret w
  | Some r =>
      match fuel with
      | O => Abort OutOfFuel
      | S fuel' =>
          w1 ← zm_proto_ext_set_int on_null (Some r) "_seq" i w;
          w2 ← send r w1;
          let '(m', w3) := zm_devices_next w2 in
          send_all fuel' send m' ((i + 1) `mod` 2 ^ 64) w3
      end
  end.

Definition zm_device_recv_mlm_mailbox (w : world) : outcome world :=
  match client (self w) with
  | None =>                                   (* mlm_client_subject (NULL) *)
      Abort (match on_null with
             | NullAsserts => AssertSelf
             | NullIgnored => NullDeref
             end)
  | Some c =>
    let subject := mlm_client_subject c in
    let sender := mlm_client_sender c in
    (* the label [send:] *)
    let send (m : msg_ref) (w : world) := zm_proto_sendto m sender "LOOKUP" w in
    if decide (subject = "INSERT") then
      let w1 := zm_devices_insert (msg (self w)) w in
      w2 ← zm_device_publish SelfMsg subject w1;
      send SelfMsg (set_msg (zm_proto_encode_ok (msg (self w2))) w2)
    else if decide (subject = "DELETE") then
      let device := zm_proto_device (msg (self w)) in
      let w1 := zm_devices_delete device w in
      w2 ← zm_device_publish SelfMsg subject w1;
      send SelfMsg (set_msg (zm_proto_encode_ok (msg (self w2))) w2)
    else if decide (subject = "LOOKUP") then
      let device := zm_proto_device (msg (self w)) in
      match zm_devices_lookup device w with
      | Some reply => send reply w
      | None =>
          send SelfMsg
            (set_msg (zm_proto_encode_error (msg (self w)) 404
                        "Requested device does not exists") w)
      end
    else if decide (subject = "GET-ALL") then
      if decide (zm_devices_size (devices (self w)) = 0%nat) then
        send SelfMsg
          (set_msg (zm_proto_encode_error (msg (self w)) 404 "No devices") w)
      else
        let '(m, w1) := zm_devices_first w in
        w2 ← zm_proto_ext_set_int on_null m "_cnt"
               (Z.of_nat (zm_devices_size (devices (self w1)))) w1;
        send_all (zm_devices_size (devices (self w2)))
          (fun r => zm_proto_sendto r sender subject) m 0 w2
    else if decide (subject = "PUBLISH-ALL") then
      let '(m, w1) := zm_devices_first w in
      w2 ← zm_proto_ext_set_int on_null m "_cnt"
             (Z.of_nat (zm_devices_size (devices (self w1)))) w1;
      send_all (zm_devices_size (devices (self w2)))
        (fun r => zm_proto_send_mlm r subject) m 0 w2
    else
      send SelfMsg
        (set_msg (zm_proto_encode_error (msg (self w)) 403
                    "Subject not found") w)
  end.

(** Nothing but a warning when the message is not a device. *)
Definition zm_device_recv_mlm_stream (w : world) : world := w.

(** [d] is what [mlm_client_recv] hands over.  The client remembers the
    delivery kind, the sender and the subject; the content is decoded into
    [self->msg]. *)
Definition zm_device_recv_mlm (d : delivery) (w : world) : outcome world :=
  match client (self w) with
  | None =>                                   (* mlm_client_recv (NULL) *)
      Abort (match on_null with
             | NullAsserts => AssertSelf
             | NullIgnored => NullDeref
             end)
  | Some c =>
      let w1 := set_client (Some (mlm_client_recv c d)) w in
      match d_content d with
      | None => Ret w1
      | Some m =>
          let w2 := set_msg m w1 in
          if decide (d_command d = "MAILBOX DELIVER") then
            zm_device_recv_mlm_mailbox w2
          else if decide (d_command d = "STREAM DELIVER") then
            Ret (zm_device_recv_mlm_stream w2)
          else Ret w2
      end
  end.

(** [zm_device_destroy]: the configuration, the consumers, the buffer, the
    client and the poller are destroyed, the registry is written out and
    destroyed, the actor is freed.  What remains is the disk and the
    trace. *)
Definition zm_device_destroy (w : world)
  : list (string * list zm_proto_t) * list event :=
  let w1 := set_config None w in
  let w2 := set_consumers None w1 in
  let w3 := set_client None w2 in
  let w4 := set_poller [] w3 in
  let w5 := zm_devices_store w4 in
  (disk w5, trace w5).

(** One round of the loop of [zm_device_actor], given what
    [zpoller_wait (self->poller, 0)] returned and what is then read. *)
Definition zm_device_round (i : wakeup) (w : world) : outcome world :=
  match i with
  | OnPipe request => zm_device_recv_api w request
  | OnBroker d =>
      h ← mlm_client_msgpipe on_null (client (self w));
      if decide (Some MsgPipe = h) then zm_device_recv_mlm d w else Ret w
  | OnNothing =>
      h ← mlm_client_msgpipe on_null (client (self w));
      match h with
      | Some _ => Ret w
      | None =>                   (* NULL == NULL: [zm_device_recv_mlm] *)
          Abort NullDeref
      end
  end.

(** The loop [while (!self->terminated)] over a schedule of wake-ups; the
    schedule may end before the actor is told to terminate. *)
Fixpoint zm_device_loop (inputs : list wakeup) (w : world) : outcome world :=
  if terminated (self w) then Ret w
  else
    match inputs with
    | [] => Ret w
    | i :: inputs' => w' ← zm_device_round i w; zm_device_loop inputs' w'
    end.

(** [zm_device_actor]: the actor is created, runs the loop and, once told to
    terminate, is destroyed; [None] while it is still running at the end of
    the schedule. *)
Definition zm_device_actor (files : list (string * list zm_proto_t))
    (inputs : list wakeup)
  : outcome (option (list (string * list zm_proto_t) * list event)) :=
  w ← zm_device_loop inputs (zm_device_new files);
  if terminated (self w) then Ret (Some (zm_device_destroy w)) else Ret None.

End Actor.

(** ** Sample data *)

Definition device_v1 (name : string) (t size : Z) : zm_proto_t :=
  {| id := ZM_PROTO_DEVICE; device := name; time := t; ttl := size; ext := [];
     code := 0; description := "" |}.

Definition mailbox (who subject : string) (m : zm_proto_t) : delivery :=
  {| d_command := "MAILBOX DELIVER"; d_sender := who; d_subject := subject;
     d_content := Some m |}.

(** The actor after [zm_device_new], holding the records [l]. *)
Definition actor_with (l : list zm_proto_t) : world :=
  let w := zm_device_new [] in
  set_devices {| file := None; items := l; cursor := O |} w.

(** A parser that knows two texts: the configuration of the self test,
    with and without a backing file for the registry. *)
Definition sample_malamute : zconfig_t :=
  ZConfig "malamute" None
    [ZConfig "endpoint" (Some "inproc://zm-device-test") [];
     ZConfig "address" (Some "it.zmon.device") [];
     ZConfig "consumer" None [ZConfig "ZM_PROTO_DEVICE_STREAM" (Some ".*") []];
     ZConfig "producer" (Some "ZM_PROTO_DEVICE_STREAM") []].

Definition sample_config : zconfig_t := ZConfig "root" None [sample_malamute].

Definition sample_config_file (f : string) : zconfig_t :=
  ZConfig "root" None
    [sample_malamute; ZConfig "server" None [ZConfig "file" (Some f) []]].

Definition sample_load (text : string) : option zconfig_t :=
  if decide (text = "malamute") then Some sample_config
  else if decide (text = "malamute+server") then
    Some (sample_config_file "devices.zpl")
  else None.

Definition always (_ _ : string) : bool := true.

(** The world when the mailbox handler is entered: the client has taken the
    request [m] from [who] under [subject], and [m] is in [self->msg]. *)
Definition arrived (who subject : string) (m : zm_proto_t) (w : world) : world :=
  set_msg m
    (set_client (Some {| connection := None; producer := None; consumer := [];
                         mlm_client_command := "MAILBOX DELIVER";
                         mlm_client_sender := who;
                         mlm_client_subject := subject |}) w).

(** ** The vocabulary of the properties *)

(** The reply under the label [send:]. *)
Definition reply (c : mlm_client_t) (m : zm_proto_t) : event :=
  ClientSendto (mlm_client_sender c) "LOOKUP" m.

(** The registry was written to its file and then replaced by a registry
    bound to [f]. *)
Definition persisted_then_replaced (w w' : world) (f : string) : Prop :=
  ∃ g l, trace w' = trace w ++ [DevicesStore g l; DevicesNew (Some f)] ∧
         file (devices (self w')) = Some f.

(** The reading of C8 as it is worded: after a successful CONFIG the
    registry is persisted and replaced exactly when the new [server/file]
    differs from the registry's file, and is left alone otherwise. *)
Definition config_replaces_iff_path_differs
    (load : string -> option zconfig_t) (w : world) (request : list string)
  : Prop :=
  ∀ w', zm_device_config load w request = (0, w') →
    (∀ f, persisted_then_replaced w w' f ↔
          zm_device_cfg_file w' = Some f ∧ Some f ≠ file (devices (self w))) ∧
    (zm_device_cfg_file w' = None ∨
     zm_device_cfg_file w' = file (devices (self w)) →
     devices (self w') = devices (self w) ∧ trace w' = trace w).

(** An actor whose registry is bound to [f] and holds [l]; nothing is on
    disk yet. *)
Definition actor_on (f : string) (l : list zm_proto_t) : world :=
  set_devices {| file := Some f; items := l; cursor := O |} (zm_device_new []).

(** The records from the cursor on, each with its [_seq]. *)
Fixpoint tag_from (i : Z) (l : list zm_proto_t) : list zm_proto_t :=
  match l with
  | [] => []
  | m :: l' => ext_set_int "_seq" i m :: tag_from ((i + 1) `mod` 2 ^ 64) l'
  end.

(** The world after the loop ran over [rest], the records after [pre]. *)
Definition after_send_all (ev : zm_proto_t -> event)
    (pre rest : list zm_proto_t) (i : Z) (w : world) : world :=
  let ds := devices (self w) in
  {| self := self (set_devices
                     {| file := file ds; items := pre ++ tag_from i rest;
                        cursor := length pre + length rest |} w);
     disk := disk w;
     trace := trace w ++ (ev <$> tag_from i rest) |}.

(** The point-to-point replies among some events. *)
Definition reply_of (e : event) : option (string * string * zm_proto_t) :=
  match e with
  | ClientSendto address subject m => Some (address, subject, m)
  | _ => None
  end.

Definition replies (t : list event) : list (string * string * zm_proto_t) :=
  omap reply_of t.

(** The events a handler added to the trace. *)
Definition added (w w' : world) : list event :=
  drop (length (trace w)) (trace w').

(** The reading of C2 as it is worded: whatever the broker delivers, every
    point-to-point reply the actor sends for it is under the subject
    LOOKUP. *)
Definition replies_under_LOOKUP (on_null : null_self) (d : delivery)
    (w : world) : Prop :=
  ∀ w', zm_device_recv_mlm on_null d w = Ret w' →
        Forall (fun r => r.1.2 = "LOOKUP") (replies (added w w')).

(** The subject of the replies to a request, given the request's subject and
    the records of the registry. *)
Definition reply_subject (subject : string) (l : list zm_proto_t) : string :=
  if decide (subject = "GET-ALL") then
    match l with
    | [] => "LOOKUP"
    | _ :: _ => "GET-ALL"
    end
  else "LOOKUP".

(** The reading of C5 with the text of the error as a parameter: DELETE is
    answered by an OK status and the LOOKUP that follows by an error status
    with code 404 and the text [text], both under the subject LOOKUP. *)
Definition deleted_lookup_404 (text : string) (on_null : null_self)
    (w : world) (who : string) (dreq lreq : zm_proto_t) : Prop :=
  ∃ w1 w2 ok err,
    zm_device_recv_mlm on_null (mailbox who "DELETE" dreq) w = Ret w1 ∧
    zm_device_recv_mlm on_null (mailbox who "LOOKUP" lreq) w1 = Ret w2 ∧
    replies (added w w1) = [(who, "LOOKUP", ok)] ∧
    id ok = ZM_PROTO_OK ∧
    replies (added w1 w2) = [(who, "LOOKUP", err)] ∧
    id err = ZM_PROTO_ERROR ∧ code err = 404 ∧ description err = text.

(** The consumers the loop of [zm_device_connect_to_malamute] reaches: the
    entries of the table up to the first one without a pattern. *)
Fixpoint patterns (h : list (string * option string)) : list (string * string) :=
  match h with
  | (stream, Some pattern) :: h' => (stream, pattern) :: patterns h'
  | _ => []
  end.

(** The consumers up to the first one the broker refuses. *)
Fixpoint accepted (ok : string -> string -> bool) (l : list (string * string))
  : list (string * string) :=
  match l with
  | (stream, pattern) :: l' =>
      if ok stream pattern then (stream, pattern) :: accepted ok l' else []
  | [] => []
  end.

Definition consumer_event (sp : string * string) : event :=
  ClientSetConsumer sp.1 sp.2.


(** * Properties *)

(** ** The control command handler *)

(** C10: a command whose verb is none of START, STOP, VERBOSE, CONFIG and
    $TERM takes [zm_device_recv_api] to its [assert (false)]: the process
    aborts, whatever the state of the actor and the rest of the frames. *)
Theorem recv_api_unknown_verb_aborts on_null load cok pok sok
    (w : world) (command : string) (frames : list string) :
  command ∉ ["START"; "STOP"; "VERBOSE"; "CONFIG"; "$TERM"] →
  zm_device_recv_api on_null load cok pok sok w (Some (command :: frames))
  = Abort AssertFalse.
Proof.
  intros Hverb. unfold zm_device_recv_api.
  repeat case_decide; subst; try reflexivity;
    exfalso; apply Hverb; repeat constructor.
Qed.

Lemma recv_api_unknown_verb_aborts_witness :
  zm_device_recv_api NullAsserts sample_load always (fun _ => true) always
    (zm_device_new []) (Some ["RESTART"; "now"]) = Abort AssertFalse.
Proof.
  apply recv_api_unknown_verb_aborts.
  intros H. repeat (apply elem_of_cons in H as [H|H]; [discriminate H|]).
  by apply elem_of_nil in H.
Defined.

(** C9: a CONFIG command whose payload the parser rejects gives the negative
    status -1 and leaves the actor and its surroundings as they were:
    configuration, registry, client, poller and the termination flag are
    unchanged, nothing is written and nothing is sent; the command handler
    returns normally. *)
Theorem config_malformed_payload on_null load cok pok sok
    (w : world) (payload : string) (rest : list string) :
  load payload = None →
  zm_device_config load w (payload :: rest) = (-1, w) ∧
  -1 < 0 ∧
  zm_device_recv_api on_null load cok pok sok w
    (Some ("CONFIG" :: payload :: rest)) = Ret w.
Proof.
  intros Hload. split; [|split]; [| lia |].
  - unfold zm_device_config. by rewrite Hload.
  - unfold zm_device_recv_api.
    repeat (case_decide; [discriminate|]).
    rewrite decide_True by reflexivity.
    unfold zm_device_config. by rewrite Hload.
Qed.

Lemma config_malformed_payload_witness :
  let w := zm_device_new [] in
  zm_device_config sample_load w ["endpoint = "] = (-1, w) ∧
  -1 < 0 ∧
  zm_device_recv_api NullAsserts sample_load always (fun _ => true) always w
    (Some ["CONFIG"; "endpoint = "]) = Ret w.
Proof.
  intros w.
  apply (config_malformed_payload NullAsserts sample_load always
           (fun _ => true) always w "endpoint = " []).
  reflexivity.
Defined.

(** C8, as worded, fails: with the registry already bound to devices.zpl, a
    CONFIG whose [server/file] is devices.zpl again still writes the registry
    out and replaces it. *)
Lemma config_same_path_still_replaces :
  ¬ config_replaces_iff_path_differs sample_load
      (actor_on "devices.zpl" [device_v1 "device1" 7 1024])
      ["malamute+server"].
Proof.
  intros H. destruct (H _ eq_refl) as [H1 _].
  destruct (H1 "devices.zpl") as [H2 _].
  destruct H2 as [_ Hne].
  - eexists _, _. split; reflexivity.
  - by apply Hne.
Qed.

(** The reading does hold where the path does differ: a registry without a
    file and a CONFIG that names devices.zpl. *)
Example config_other_path_replaces :
  config_replaces_iff_path_differs sample_load
    (actor_with [device_v1 "device1" 7 1024]) ["malamute+server"].
Proof.
  intros w' Hrun. vm_compute in Hrun. injection Hrun as <-.
  split.
  - intros f. split.
    + intros (g & l & _ & Hf). cbn in Hf. injection Hf as <-. by split.
    + intros [Hf _]. vm_compute in Hf. injection Hf as <-.
      eexists _, _. split; reflexivity.
  - intros [H|H]; vm_compute in H; discriminate H.
Qed.

(** C8, amended: a CONFIG whose payload parses to [foo] returns 0 and makes
    [foo] the configuration.  When [foo] has a [server/file] path [f],
    whether or not [f] is the registry's current file, the registry is
    written out (to its own file, or to [f] when it had none) and replaced by
    a registry bound to [f] that holds what [f] holds; when [foo] has no
    [server/file], the registry, the disk and the trace are unchanged. *)
Theorem config_replaces_iff_path_present (load : string -> option zconfig_t)
    (w : world) (payload : string) (rest : list string) (foo : zconfig_t) :
  load payload = Some foo →
  ∃ w', zm_device_config load w (payload :: rest) = (0, w') ∧
        config (self w') = Some foo ∧
        match zconfig_resolve foo ["server"; "file"] with
        | Some f =>
            let target := default f (file (devices (self w))) in
            let l := items (devices (self w)) in
            trace w' = trace w ++ [DevicesStore (Some target) l;
                                   DevicesNew (Some f)] ∧
            disk w' = disk_write target l (disk w) ∧
            devices (self w') =
              {| file := Some f; items := disk_read f (disk w'); cursor := O |}
        | None =>
            devices (self w') = devices (self w) ∧
            disk w' = disk w ∧ trace w' = trace w
        end.
Proof.
  intros Hload. unfold zm_device_config. rewrite Hload.
  unfold zm_device_cfg_file. cbn [set_config with_self self config].
  destruct w as [[po te ve co cl cs ms [fl it cu]] dk tr].
  destruct (zconfig_resolve foo ["server"; "file"]) as [f|] eqn:Hf.
  - destruct fl as [g|]; cbn; eexists; (split; [reflexivity|]); cbn;
      rewrite <- ?app_assoc; done.
  - eexists. split; [reflexivity|]. done.
Qed.

Lemma config_replaces_iff_path_present_witness :
  ∃ w', zm_device_config sample_load
          (actor_on "devices.zpl" [device_v1 "device1" 7 1024])
          ["malamute+server"] = (0, w') ∧
        trace w' = [DevicesStore (Some "devices.zpl") [device_v1 "device1" 7 1024];
                    DevicesNew (Some "devices.zpl")].
Proof.
  destruct (config_replaces_iff_path_present sample_load
              (actor_on "devices.zpl" [device_v1 "device1" 7 1024])
              "malamute+server" [] (sample_config_file "devices.zpl") eq_refl)
    as (w' & Hrun & _ & Hfile).
  exists w'. split; [exact Hrun|]. exact (proj1 Hfile).
Defined.

(** *** STOP *)

Lemma disk_write_twice f l d : disk_write f l (disk_write f l d) = disk_write f l d.
Proof.
  induction d as [|[g k] d IH]; cbn.
  - by rewrite decide_True.
  - destruct (decide (g = f)) as [->|Hne]; cbn.
    + by rewrite decide_True.
    + rewrite decide_False by done. by rewrite IH.
Qed.

(** The first STOP of an actor that has its client: the message pipe leaves
    the poller, the client is destroyed, the registry is written out, the
    status is 0. *)
Lemma zm_device_stop_with_client on_null (w : world) (c : mlm_client_t) :
  client (self w) = Some c →
  zm_device_stop on_null w =
    Ret (0, zm_devices_store
              (set_client None
                 (set_poller (filter (fun x => x ≠ MsgPipe) (poller (self w))) w))).
Proof. intros Hc. unfold zm_device_stop. by rewrite Hc. Qed.

(** Without a client, STOP reaches [mlm_client_msgpipe (NULL)]. *)
Lemma zm_device_stop_without_client (w : world) :
  client (self w) = None →
  zm_device_stop NullAsserts w = Abort AssertSelf.
Proof. intros Hc. unfold zm_device_stop. by rewrite Hc. Qed.

(** Were a NULL client ignored by [mlm_client_msgpipe] and [zpoller_remove],
    a second STOP would change neither the actor nor the disk. *)
Lemma zm_device_stop_again_if_null_ignored (w w1 : world) (c : mlm_client_t) :
  client (self w) = Some c →
  zm_device_stop NullIgnored w = Ret (0, w1) →
  ∃ w2, zm_device_stop NullIgnored w1 = Ret (0, w2) ∧
        self w2 = self w1 ∧ disk w2 = disk w1.
Proof.
  intros Hc. rewrite (zm_device_stop_with_client _ _ _ Hc). intros [= <-].
  unfold zm_device_stop. cbn. eexists. split; [reflexivity|].
  split; [reflexivity|]. cbn.
  destruct (file (devices (self w))); [|done]. apply disk_write_twice.
Qed.

(** C7: the second of two STOP commands in a row does not succeed.  The
    first STOP of a new actor returns 0 and leaves the actor without a
    client; the second hands that NULL client to [mlm_client_msgpipe], whose
    [assert (self)] aborts the process. *)
Theorem stop_after_stop_aborts (files : list (string * list zm_proto_t)) :
  ∃ w1, zm_device_stop NullAsserts (zm_device_new files) = Ret (0, w1) ∧
        client (self w1) = None ∧
        zm_device_stop NullAsserts w1 = Abort AssertSelf.
Proof.
  eexists. split; [reflexivity|]. split; reflexivity.
Qed.

(** ** The mailbox protocol handler *)

(** *** The loop of GET-ALL and PUBLISH-ALL *)

Lemma length_tag_from l : ∀ i, length (tag_from i l) = length l.
Proof. induction l as [|m l IH]; intros i; cbn; [done|]. by rewrite IH. Qed.

Lemma send_all_None on_null fuel send i w :
  send_all on_null fuel send None i w = Ret w.
Proof. by destruct fuel. Qed.

Lemma send_all_spec on_null (ev : zm_proto_t -> event)
    (send : msg_ref -> world -> outcome world) (rest : list zm_proto_t) :
  (∀ r w, send r w = m ← deref r w; Ret (log (ev m) w)) →
  ∀ (pre : list zm_proto_t) (i : Z) (w : world) (fuel : nat),
    items (devices (self w)) = pre ++ rest →
    cursor (devices (self w)) = length pre →
    rest ≠ [] →
    (length rest ≤ fuel)%nat →
    send_all on_null fuel send (Some (DeviceAt (length pre))) i w
    = Ret (after_send_all ev pre rest i w).
Proof.
  intros Hsend.
  induction rest as [|m rest IH]; intros pre i w fuel Hitems Hcur Hne Hfuel;
    [done|].
  destruct fuel as [|fuel]; [cbn in Hfuel; lia|].
  destruct w as [[po te ve co cl cs ms [fl it cu]] dk tr].
  cbn in Hitems, Hcur. subst it cu.
  cbn [send_all]. unfold zm_proto_ext_set_int.
  cbn [deref self devices items].
  rewrite list_lookup_middle by done. cbn [mbind outcome_bind mret outcome_ret].
  rewrite Hsend. cbn [modify deref self devices items set_devices with_self
                      file cursor].
  rewrite list_lookup_alter_eq, list_lookup_middle by done.
  cbn [fmap option_fmap option_map mbind outcome_bind].
  unfold zm_devices_next.
  cbn [log self devices items set_devices with_self file cursor disk trace].
  replace (alter (ext_set_int "_seq" i) (length pre) (pre ++ m :: rest))
    with ((pre ++ [ext_set_int "_seq" i m]) ++ rest).
  2:{ rewrite <- (Nat.add_0_r (length pre)) at 1.
      rewrite alter_app_r. cbn. by rewrite <- app_assoc. }
  destruct rest as [|m' rest].
  - rewrite lookup_ge_None_2 by (rewrite !length_app; cbn; lia).
    rewrite send_all_None.
    unfold after_send_all, set_devices, log, with_self. cbn.
    rewrite app_nil_r. do 4 f_equal. lia.
  - replace (S (length pre)) with (length (pre ++ [ext_set_int "_seq" i m]))
      by (rewrite length_app; cbn; lia).
    rewrite list_lookup_middle by done.
    erewrite IH; [| reflexivity | reflexivity | done | cbn in *; lia].
    unfold after_send_all, set_devices, log, with_self.
    cbn [self devices items file cursor disk trace].
    f_equal. f_equal.
    + f_equal. f_equal.
      * by rewrite <- app_assoc.
      * rewrite length_app. cbn. lia.
    + cbn [tag_from fmap list_fmap]. by rewrite <- app_assoc.
Qed.

Lemma added_app (w w' : world) evs : trace w' = trace w ++ evs → added w w' = evs.
Proof. intros H. unfold added. rewrite H. by rewrite drop_app_length. Qed.

Lemma added_log (w w0 : world) (e : event) :
  trace w0 = trace w → added w (log e w0) = [e].
Proof. intros H. apply added_app. cbn. by rewrite H. Qed.

(** The events the handler adds, spelled out. *)
Ltac added_events :=
  erewrite added_app;
    [| unfold zm_devices_insert, zm_devices_delete, after_send_all, reply,
         set_msg, set_devices, with_self, log;
       cbn [trace self]; rewrite <- ?app_assoc; reflexivity ].

Ltac not_a_subject :=
  let H := fresh in
  intros H; repeat (apply elem_of_cons in H as [H|H]; [done|]);
  by apply elem_of_nil in H.

Lemma replies_sendto address subject (l : list zm_proto_t) :
  replies (ClientSendto address subject <$> l) = (fun m => (address, subject, m)) <$> l.
Proof. induction l as [|m l IH]; cbn; [done|]. by rewrite <- IH. Qed.

Lemma replies_send subject (l : list zm_proto_t) :
  replies (ClientSend subject <$> l) = [].
Proof. induction l as [|m l IH]; cbn; done. Qed.

(** What GET-ALL and PUBLISH-ALL do with a registry that is not empty: the
    first record gets [_cnt], then the loop runs over all records. *)
Lemma tag_and_send_all on_null (ev : zm_proto_t -> event)
    (send : msg_ref -> world -> outcome world) (w : world)
    (m : zm_proto_t) (l : list zm_proto_t) :
  (∀ r w, send r w = m ← deref r w; Ret (log (ev m) w)) →
  items (devices (self w)) = m :: l →
  (let '(r, w1) := zm_devices_first w in
   w2 ← zm_proto_ext_set_int on_null r "_cnt"
          (Z.of_nat (zm_devices_size (devices (self w1)))) w1;
   send_all on_null (zm_devices_size (devices (self w2))) send r 0 w2)
  = Ret (after_send_all ev []
           (ext_set_int "_cnt" (Z.of_nat (S (length l))) m :: l) 0 w).
Proof.
  intros Hsend Hitems.
  destruct w as [[po te ve co cl cs ms [fl it cu]] dk tr].
  cbn in Hitems. subst it.
  unfold zm_devices_first, zm_proto_ext_set_int, zm_devices_size.
  cbn [self devices items set_devices with_self file cursor deref lookup
       list_lookup mbind outcome_bind modify alter list_alter length].
  erewrite (send_all_spec on_null ev send _ Hsend []);
    [| reflexivity | reflexivity | done | cbn; lia].
  reflexivity.
Qed.

(** GET-ALL on a registry that is not empty: every record is sent to the
    sender under the subject GET-ALL, in the registry's order, the first one
    with [_cnt] and each one with its [_seq]. *)
Lemma get_all_spec on_null (w : world) (c : mlm_client_t)
    (m : zm_proto_t) (l : list zm_proto_t) :
  client (self w) = Some c →
  mlm_client_subject c = "GET-ALL" →
  items (devices (self w)) = m :: l →
  zm_device_recv_mlm_mailbox on_null w =
    Ret (after_send_all (ClientSendto (mlm_client_sender c) "GET-ALL") []
           (ext_set_int "_cnt" (Z.of_nat (S (length l))) m :: l) 0 w).
Proof.
  intros Hc Hs Hitems. unfold zm_device_recv_mlm_mailbox. rewrite Hc, Hs.
  repeat (rewrite decide_False by discriminate).
  rewrite decide_True by reflexivity.
  rewrite decide_False by (unfold zm_devices_size; rewrite Hitems; discriminate).
  by apply tag_and_send_all.
Qed.

(** PUBLISH-ALL on a registry that is not empty: the same, as broadcasts
    under the subject PUBLISH-ALL. *)
Lemma publish_all_spec on_null (w : world) (c : mlm_client_t)
    (m : zm_proto_t) (l : list zm_proto_t) :
  client (self w) = Some c →
  mlm_client_subject c = "PUBLISH-ALL" →
  items (devices (self w)) = m :: l →
  zm_device_recv_mlm_mailbox on_null w =
    Ret (after_send_all (ClientSend "PUBLISH-ALL") []
           (ext_set_int "_cnt" (Z.of_nat (S (length l))) m :: l) 0 w).
Proof.
  intros Hc Hs Hitems. unfold zm_device_recv_mlm_mailbox. rewrite Hc, Hs.
  repeat (rewrite decide_False by discriminate).
  rewrite decide_True by reflexivity.
  by apply tag_and_send_all.
Qed.

(** *** Annotations *)

Lemma Z_of_string_of_Z (z : Z) : Z_of_string (string_of_Z z) = Some z.
Proof.
  unfold Z_of_string, string_of_Z.
  rewrite NilZero.isi.
  - cbn. by rewrite DecimalZ.of_to.
  - destruct z; cbn; [done| |done].
    intros [= H]. by apply DecimalPos.Unsigned.to_uint_nonnil in H.
  - destruct z; cbn; [done|done|].
    intros [= H]. by apply DecimalPos.Unsigned.to_uint_nonnil in H.
Qed.

Lemma ext_lookup_update k v e : ext_lookup k (ext_update k v e) = Some v.
Proof.
  induction e as [|[k' v'] e IH]; cbn.
  - by rewrite decide_True.
  - destruct (decide (k' = k)) as [->|Hne]; cbn.
    + by rewrite decide_True.
    + by rewrite decide_False.
Qed.

Lemma ext_lookup_update_ne k k' v e :
  k ≠ k' → ext_lookup k' (ext_update k v e) = ext_lookup k' e.
Proof.
  intros Hkk'. induction e as [|[k0 v0] e IH]; cbn.
  - by rewrite decide_False.
  - destruct (decide (k0 = k)) as [->|Hne]; cbn.
    + by rewrite !decide_False.
    + by rewrite IH.
Qed.

Lemma zm_proto_ext_int_set k v m dflt :
  zm_proto_ext_int (ext_set_int k v m) k dflt = v.
Proof.
  unfold zm_proto_ext_int, ext_set_int. cbn.
  rewrite ext_lookup_update. cbn. by rewrite Z_of_string_of_Z.
Qed.

Lemma zm_proto_ext_int_set_ne k k' v m dflt :
  k ≠ k' →
  zm_proto_ext_int (ext_set_int k v m) k' dflt = zm_proto_ext_int m k' dflt.
Proof.
  intros Hne. unfold zm_proto_ext_int, ext_set_int. cbn.
  by rewrite ext_lookup_update_ne.
Qed.

Lemma tag_from_lookup (l : list zm_proto_t) :
  ∀ (i : Z) (j : nat) (m : zm_proto_t),
    (0 ≤ i)%Z → (i + Z.of_nat (length l) ≤ 2 ^ 64)%Z →
    l !! j = Some m →
    tag_from i l !! j = Some (ext_set_int "_seq" (i + Z.of_nat j) m).
Proof.
  induction l as [|x l IH]; intros i j m Hi Hlen Hj; [done|].
  cbn [length] in Hlen. rewrite Nat2Z.inj_succ in Hlen.
  destruct j as [|j]; cbn [tag_from lookup list_lookup] in *.
  - injection Hj as ->. by rewrite Z.add_0_r.
  - pose proof (lookup_lt_Some _ _ _ Hj) as Hlt.
    rewrite Z.mod_small by lia.
    etrans; [apply (IH (i + 1)%Z j m); [lia | lia | exact Hj]|].
    do 2 f_equal. lia.
Qed.

(** *** GET-ALL *)

(** X3: what the replies of GET-ALL carry, for a registry of N >= 1
    records:
    there are N replies, all to the sender; the reply at position j is the
    record at position j with [_seq] = j; the first reply has [_cnt] = N;
    a later reply has the [_cnt] its record had before the request, if
    any, since [_cnt] is set on the first record only. *)
Lemma get_all_replies on_null (w : world) (c : mlm_client_t)
    (m : zm_proto_t) (l : list zm_proto_t) :
  client (self w) = Some c →
  mlm_client_subject c = "GET-ALL" →
  items (devices (self w)) = m :: l →
  (Z.of_nat (S (length l)) ≤ 2 ^ 64)%Z →
  ∃ w' rs,
    zm_device_recv_mlm_mailbox on_null w = Ret w' ∧
    replies (added w w') = rs ∧
    length rs = S (length l) ∧
    (∀ j r, rs !! j = Some r →
       r.1.1 = mlm_client_sender c ∧
       zm_proto_ext_int r.2 "_seq" (-1) = Z.of_nat j ∧
       device <$> Some r.2 = device <$> (m :: l) !! j) ∧
    (∀ r, rs !! O = Some r →
       zm_proto_ext_int r.2 "_cnt" (-1) = Z.of_nat (S (length l))) ∧
    (∀ j r x, rs !! S j = Some r → l !! j = Some x →
       zm_proto_ext_int r.2 "_cnt" (-1) = zm_proto_ext_int x "_cnt" (-1)).
Proof.
  intros Hc Hs Hitems Hlen.
  eexists _, _. split; [by apply get_all_spec|]. split; [reflexivity|].
  erewrite added_app by reflexivity.
  rewrite replies_sendto.
  set (N := Z.of_nat (S (length l))) in *.
  assert (Htag : ∀ j x, (ext_set_int "_cnt" N m :: l) !! j = Some x →
            tag_from 0 (ext_set_int "_cnt" N m :: l) !! j
            = Some (ext_set_int "_seq" (Z.of_nat j) x)).
  { intros j x Hx. rewrite (tag_from_lookup _ 0 j x); [done|lia| |done].
    cbn [length]. unfold N in Hlen. lia. }
  split; [by rewrite length_fmap, length_tag_from|].
  split; [|split].
  - intros j r Hr. rewrite list_lookup_fmap in Hr.
    destruct (tag_from 0 _ !! j) as [y|] eqn:Hy; [|done].
    injection Hr as <-. cbn [fst snd].
    assert (is_Some ((ext_set_int "_cnt" N m :: l) !! j)) as [x Hx].
    { apply lookup_lt_is_Some. apply lookup_lt_Some in Hy.
      by rewrite length_tag_from in Hy. }
    rewrite (Htag j x Hx) in Hy. injection Hy as <-.
    split; [done|]. split; [apply zm_proto_ext_int_set|].
    destruct j; cbn in Hx |- *.
    + by injection Hx as <-.
    + by rewrite Hx.
  - intros r Hr. rewrite list_lookup_fmap, (Htag O _ eq_refl) in Hr.
    injection Hr as <-. cbn [snd].
    rewrite zm_proto_ext_int_set_ne by discriminate.
    apply zm_proto_ext_int_set.
  - intros j r x Hr Hx.
    rewrite list_lookup_fmap, (Htag (S j) x Hx) in Hr.
    injection Hr as <-. cbn [snd].
    by rewrite zm_proto_ext_int_set_ne by discriminate.
Qed.

(** *** The single-reply subjects *)

Section Mailbox.

Variable on_null : null_self.
Variables (w : world) (c : mlm_client_t).
Hypothesis Hclient : client (self w) = Some c.

Lemma mailbox_insert :
  mlm_client_subject c = "INSERT" →
  zm_device_recv_mlm_mailbox on_null w =
    let m := msg (self w) in
    Ret (log (reply c (zm_proto_encode_ok m))
           (set_msg (zm_proto_encode_ok m)
              (log (ClientSend "INSERT" m) (zm_devices_insert m w)))).
Proof.
  intros Hs. unfold zm_device_recv_mlm_mailbox. rewrite Hclient, Hs.
  by rewrite decide_True.
Qed.

Lemma mailbox_delete :
  mlm_client_subject c = "DELETE" →
  zm_device_recv_mlm_mailbox on_null w =
    let m := msg (self w) in
    Ret (log (reply c (zm_proto_encode_ok m))
           (set_msg (zm_proto_encode_ok m)
              (log (ClientSend "DELETE" m)
                 (zm_devices_delete (zm_proto_device m) w)))).
Proof.
  intros Hs. unfold zm_device_recv_mlm_mailbox. rewrite Hclient, Hs.
  rewrite decide_False by discriminate. by rewrite decide_True.
Qed.

Lemma mailbox_lookup_found (i : nat) (d : zm_proto_t) :
  mlm_client_subject c = "LOOKUP" →
  index_of (zm_proto_device (msg (self w))) (items (devices (self w))) = Some i →
  items (devices (self w)) !! i = Some d →
  zm_device_recv_mlm_mailbox on_null w = Ret (log (reply c d) w).
Proof.
  intros Hs Hi Hd. unfold zm_device_recv_mlm_mailbox. rewrite Hclient, Hs.
  repeat (rewrite decide_False by discriminate).
  rewrite decide_True by reflexivity.
  unfold zm_devices_lookup. rewrite Hi. cbn.
  unfold zm_proto_sendto, deref. by rewrite Hd.
Qed.

Lemma mailbox_lookup_missing :
  mlm_client_subject c = "LOOKUP" →
  index_of (zm_proto_device (msg (self w))) (items (devices (self w))) = None →
  zm_device_recv_mlm_mailbox on_null w =
    let e := zm_proto_encode_error (msg (self w)) 404
               "Requested device does not exists" in
    Ret (log (reply c e) (set_msg e w)).
Proof.
  intros Hs Hi. unfold zm_device_recv_mlm_mailbox. rewrite Hclient, Hs.
  repeat (rewrite decide_False by discriminate).
  rewrite decide_True by reflexivity.
  unfold zm_devices_lookup. by rewrite Hi.
Qed.

Lemma mailbox_get_all_empty :
  mlm_client_subject c = "GET-ALL" →
  items (devices (self w)) = [] →
  zm_device_recv_mlm_mailbox on_null w =
    let e := zm_proto_encode_error (msg (self w)) 404 "No devices" in
    Ret (log (reply c e) (set_msg e w)).
Proof.
  intros Hs Hl. unfold zm_device_recv_mlm_mailbox. rewrite Hclient, Hs.
  repeat (rewrite decide_False by discriminate).
  rewrite decide_True by reflexivity.
  unfold zm_devices_size. rewrite Hl. by rewrite decide_True.
Qed.

Lemma mailbox_unknown :
  mlm_client_subject c ∉ ["INSERT"; "DELETE"; "LOOKUP"; "GET-ALL"; "PUBLISH-ALL"] →
  zm_device_recv_mlm_mailbox on_null w =
    let e := zm_proto_encode_error (msg (self w)) 403 "Subject not found" in
    Ret (log (reply c e) (set_msg e w)).
Proof.
  intros Hs. unfold zm_device_recv_mlm_mailbox. rewrite Hclient.
  repeat case_decide; try reflexivity;
    exfalso; apply Hs; match goal with H : _ = _ |- _ => rewrite H end;
    repeat constructor.
Qed.

End Mailbox.

Lemma index_of_lookup name (l : list zm_proto_t) (i : nat) :
  index_of name l = Some i → ∃ d, l !! i = Some d ∧ device d = name.
Proof.
  revert i. induction l as [|x l IH]; intros i; cbn; [done|].
  case_decide as Hx.
  - intros [= <-]. by exists x.
  - destruct (index_of name l) as [k|]; [|done].
    intros [= <-]. by apply IH.
Qed.

(** *** Reply subjects *)

(** C2, as worded, fails: the reply of GET-ALL on a registry of one record
    is sent under the subject GET-ALL. *)
Lemma get_all_reply_not_under_LOOKUP :
  ¬ replies_under_LOOKUP NullAsserts
      (mailbox "writer" "GET-ALL" (zm_proto_encode_ok zm_proto_new))
      (actor_with [device_v1 "device1" 7 1024]).
Proof.
  intros H.
  eassert (Hrun : zm_device_recv_mlm NullAsserts
                    (mailbox "writer" "GET-ALL" (zm_proto_encode_ok zm_proto_new))
                    (actor_with [device_v1 "device1" 7 1024]) = Ret _)
    by (vm_compute; reflexivity).
  specialize (H _ Hrun). clear Hrun. revert H. vm_compute.
  intros H. inversion H as [|r rs Hr _]. discriminate Hr.
Qed.

(** The reading does hold for the subjects with a single reply, as for
    INSERT on a new actor. *)
Example insert_reply_under_LOOKUP :
  replies_under_LOOKUP NullAsserts
    (mailbox "writer" "INSERT" (device_v1 "device1" 7 1024)) (zm_device_new []).
Proof.
  intros w' Hrun. vm_compute in Hrun. injection Hrun as <-.
  vm_compute. by repeat constructor.
Qed.

(** C2, amended: the mailbox handler returns, and every point-to-point reply
    it sends goes to the sender of the request; the single reply to INSERT,
    DELETE, LOOKUP, an unrecognized subject and GET-ALL on an empty registry
    is under the subject LOOKUP, and every message of the GET-ALL sequence is
    under the subject GET-ALL.  (PUBLISH-ALL on an empty registry is set
    aside.) *)
Theorem mailbox_reply_subject on_null (w : world) (c : mlm_client_t) :
  client (self w) = Some c →
  (mlm_client_subject c = "PUBLISH-ALL" → items (devices (self w)) ≠ []) →
  ∃ w', zm_device_recv_mlm_mailbox on_null w = Ret w' ∧
        Forall (fun r =>
                  r.1.1 = mlm_client_sender c ∧
                  r.1.2 = reply_subject (mlm_client_subject c)
                            (items (devices (self w))))
               (replies (added w w')).
Proof.
  intros Hc Hpub. unfold reply_subject.
  destruct (decide (mlm_client_subject c = "GET-ALL")) as [Hs|Hget].
  { destruct (items (devices (self w))) as [|m l] eqn:Hl.
    - rewrite (mailbox_get_all_empty on_null w c Hc Hs Hl).
      eexists. split; [reflexivity|]. added_events. by repeat constructor.
    - rewrite (get_all_spec on_null w c m l Hc Hs Hl).
      eexists. split; [reflexivity|]. added_events.
      rewrite replies_sendto. apply Forall_fmap, Forall_true. done. }
  destruct (decide (mlm_client_subject c = "INSERT")) as [Hs|Hins].
  { rewrite (mailbox_insert on_null w c Hc Hs).
    eexists. split; [reflexivity|]. added_events. by repeat constructor. }
  destruct (decide (mlm_client_subject c = "DELETE")) as [Hs|Hdel].
  { rewrite (mailbox_delete on_null w c Hc Hs).
    eexists. split; [reflexivity|]. added_events. by repeat constructor. }
  destruct (decide (mlm_client_subject c = "LOOKUP")) as [Hs|Hlook].
  { destruct (index_of (zm_proto_device (msg (self w)))
                (items (devices (self w)))) as [i|] eqn:Hi.
    - destruct (index_of_lookup _ _ _ Hi) as (d & Hd & _).
      rewrite (mailbox_lookup_found on_null w c Hc i d Hs Hi Hd).
      eexists. split; [reflexivity|]. added_events. by repeat constructor.
    - rewrite (mailbox_lookup_missing on_null w c Hc Hs Hi).
      eexists. split; [reflexivity|]. added_events. by repeat constructor. }
  destruct (decide (mlm_client_subject c = "PUBLISH-ALL")) as [Hs|Hpa].
  { destruct (items (devices (self w))) as [|m l] eqn:Hl; [by destruct Hpub|].
    rewrite (publish_all_spec on_null w c m l Hc Hs Hl).
    eexists. split; [reflexivity|]. added_events.
    rewrite replies_send. constructor. }
  rewrite (mailbox_unknown on_null w c Hc) by not_a_subject.
  eexists. split; [reflexivity|]. added_events. by repeat constructor.
Qed.

Lemma mailbox_reply_subject_witness :
  ∃ w', zm_device_recv_mlm_mailbox NullAsserts
          (arrived "writer" "GET-ALL" (device_v1 "device1" 0 0)
             (actor_with [device_v1 "device1" 7 1024; device_v1 "device2" 8 9]))
        = Ret w' ∧
        (fun r => r.1.2) <$> replies (trace w') = ["GET-ALL"; "GET-ALL"].
Proof.
  destruct (mailbox_reply_subject NullAsserts
              (arrived "writer" "GET-ALL" (device_v1 "device1" 0 0)
                 (actor_with [device_v1 "device1" 7 1024; device_v1 "device2" 8 9]))
              _ eq_refl) as (w' & Hrun & _); [discriminate|].
  exists w'. split; [exact Hrun|].
  vm_compute in Hrun. injection Hrun as <-. reflexivity.
Defined.

(** C1: GET-ALL sets [_cnt] on the first record only.  With two records, as
    [zm_device_new] followed by two INSERTs leaves them, there are two
    replies to the sender with [_seq] 0 and 1; the first carries [_cnt] = 2
    and the second carries no [_cnt] at all. *)
Theorem get_all_cnt_on_first_reply_only (on_null : null_self) :
  ∃ w' ra rb,
    zm_device_recv_mlm on_null
      (mailbox "writer" "GET-ALL" (zm_proto_encode_ok zm_proto_new))
      (actor_with [device_v1 "device1" 7 1024; device_v1 "device2" 8 2048])
    = Ret w' ∧
    replies (trace w') = [("writer", "GET-ALL", ra); ("writer", "GET-ALL", rb)] ∧
    zm_proto_device ra = "device1" ∧
    zm_proto_ext_int ra "_seq" (-1) = 0 ∧
    zm_proto_ext_int ra "_cnt" (-1) = 2 ∧
    zm_proto_device rb = "device2" ∧
    zm_proto_ext_int rb "_seq" (-1) = 1 ∧
    ext_lookup "_cnt" (ext rb) = None ∧
    zm_proto_ext_int rb "_cnt" (-1) = -1.
Proof.
  destruct on_null; eexists _, _, _;
    (split; [vm_compute; reflexivity|]);
    (split; [vm_compute; reflexivity|]);
    vm_compute; repeat split.
Qed.

(** *** PUBLISH-ALL on an empty registry *)

(** C3: on an empty registry PUBLISH-ALL does not return.
    [zm_devices_first] gives NULL, and the handler hands it to
    [zm_proto_ext_set_int] before the loop tests it; with the
    [assert (self)] of the codec the process aborts there.  (GET-ALL tests
    the size of the registry first.) *)
Theorem publish_all_empty_aborts (w : world) (c : mlm_client_t) :
  client (self w) = Some c →
  mlm_client_subject c = "PUBLISH-ALL" →
  items (devices (self w)) = [] →
  zm_device_recv_mlm_mailbox NullAsserts w = Abort AssertSelf.
Proof.
  intros Hc Hs Hl. unfold zm_device_recv_mlm_mailbox. rewrite Hc, Hs.
  repeat (rewrite decide_False by discriminate).
  rewrite decide_True by reflexivity.
  unfold zm_devices_first. by rewrite Hl.
Qed.

Lemma publish_all_empty_aborts_witness :
  zm_device_recv_mlm_mailbox NullAsserts
    (arrived "writer" "PUBLISH-ALL" (zm_proto_encode_ok zm_proto_new)
       (zm_device_new [])) = Abort AssertSelf.
Proof.
  apply (publish_all_empty_aborts
           (arrived "writer" "PUBLISH-ALL" (zm_proto_encode_ok zm_proto_new)
              (zm_device_new [])) _ eq_refl); reflexivity.
Defined.

(** Were a NULL message ignored by [zm_proto_ext_set_int], PUBLISH-ALL on an
    empty registry would return with nothing sent: no broadcast, no reply. *)
Lemma publish_all_empty_if_null_ignored (w : world) (c : mlm_client_t) :
  client (self w) = Some c →
  mlm_client_subject c = "PUBLISH-ALL" →
  items (devices (self w)) = [] →
  ∃ w', zm_device_recv_mlm_mailbox NullIgnored w = Ret w' ∧
        trace w' = trace w ∧ disk w' = disk w ∧
        items (devices (self w')) = [].
Proof.
  intros Hc Hs Hl. unfold zm_device_recv_mlm_mailbox. rewrite Hc, Hs.
  repeat (rewrite decide_False by discriminate).
  rewrite decide_True by reflexivity.
  unfold zm_devices_first. rewrite Hl. cbn.
  eexists. split; [reflexivity|]. done.
Qed.

(** *** INSERT, DELETE and LOOKUP *)

Lemma index_of_upsert (d : zm_proto_t) (l : list zm_proto_t) :
  ∃ i, index_of (device d) (upsert d l) = Some i ∧ upsert d l !! i = Some d.
Proof.
  induction l as [|x l (i & Hi & Hd)]; cbn.
  - exists O. by rewrite decide_True.
  - destruct (decide (device x = device d)) as [Hx|Hx]; cbn.
    + exists O. by rewrite decide_True.
    + exists (S i). rewrite decide_False by done. by rewrite Hi.
Qed.

Lemma index_of_remove (name : string) (l : list zm_proto_t) :
  index_of name (remove name l) = None.
Proof.
  unfold remove. induction l as [|x l IH]; [done|].
  rewrite filter_cons. case_decide as Hx; [|done].
  cbn. rewrite decide_False by done. by rewrite IH.
Qed.

(** A mailbox delivery that decodes reaches the mailbox handler with the
    request in [self->msg]. *)
Lemma recv_mlm_mailbox on_null (w : world) (c : mlm_client_t)
    (who subject : string) (m : zm_proto_t) :
  client (self w) = Some c →
  zm_device_recv_mlm on_null (mailbox who subject m) w =
    zm_device_recv_mlm_mailbox on_null
      (set_msg m
         (set_client (Some (mlm_client_recv c (mailbox who subject m))) w)).
Proof.
  intros Hc. unfold zm_device_recv_mlm. rewrite Hc.
  cbn [mailbox d_content d_command]. by rewrite decide_True.
Qed.

(** C4: after INSERT of [d] (any message, from any sender), LOOKUP with a
    request that names the device of [d] is answered by exactly one reply,
    to the requester, and the message of that reply is [d]. *)
Theorem insert_then_lookup on_null (w : world) (c : mlm_client_t)
    (d q : zm_proto_t) (who who' : string) :
  client (self w) = Some c →
  zm_proto_device q = zm_proto_device d →
  ∃ w1 w2,
    zm_device_recv_mlm on_null (mailbox who "INSERT" d) w = Ret w1 ∧
    zm_device_recv_mlm on_null (mailbox who' "LOOKUP" q) w1 = Ret w2 ∧
    replies (added w1 w2) = [(who', "LOOKUP", d)].
Proof.
  intros Hc Hq.
  destruct (index_of_upsert d (items (devices (self w)))) as (i & Hi & Hd).
  rewrite (recv_mlm_mailbox on_null w c who "INSERT" d Hc).
  erewrite mailbox_insert; [| reflexivity | reflexivity].
  eexists _, _. split; [reflexivity|].
  erewrite recv_mlm_mailbox; [| reflexivity].
  erewrite mailbox_lookup_found;
    [| reflexivity | reflexivity | cbn; rewrite Hq; exact Hi | exact Hd].
  split; [reflexivity|]. by rewrite added_log.
Qed.

Lemma insert_then_lookup_witness :
  ∃ w1 w2,
    zm_device_recv_mlm NullAsserts
      (mailbox "writer" "INSERT" (device_v1 "device1" 7 1024)) (zm_device_new [])
    = Ret w1 ∧
    zm_device_recv_mlm NullAsserts
      (mailbox "writer" "LOOKUP" (device_v1 "device1" 0 0)) w1 = Ret w2 ∧
    replies (added w1 w2) = [("writer", "LOOKUP", device_v1 "device1" 7 1024)].
Proof.
  apply (insert_then_lookup NullAsserts (zm_device_new []) mlm_client_new);
    reflexivity.
Defined.

(** DELETE of a device followed by LOOKUP of the same device, step by
    step. *)
Lemma delete_lookup_steps on_null (w : world) (c : mlm_client_t)
    (who who' : string) (dreq lreq : zm_proto_t) :
  client (self w) = Some c →
  zm_proto_device lreq = zm_proto_device dreq →
  ∃ w1 w2,
    zm_device_recv_mlm on_null (mailbox who "DELETE" dreq) w = Ret w1 ∧
    zm_device_recv_mlm on_null (mailbox who' "LOOKUP" lreq) w1 = Ret w2 ∧
    added w w1 = [DevicesDelete (zm_proto_device dreq);
                  ClientSend "DELETE" dreq;
                  ClientSendto who "LOOKUP" (zm_proto_encode_ok dreq)] ∧
    added w1 w2 = [ClientSendto who' "LOOKUP"
                     (zm_proto_encode_error lreq 404
                        "Requested device does not exists")].
Proof.
  intros Hc Hq.
  rewrite (recv_mlm_mailbox on_null w c who "DELETE" dreq Hc).
  erewrite mailbox_delete; [| reflexivity | reflexivity].
  eexists _, _. split; [reflexivity|].
  erewrite recv_mlm_mailbox; [| reflexivity].
  erewrite mailbox_lookup_missing;
    [| reflexivity | reflexivity | cbn; rewrite Hq; apply index_of_remove].
  split; [reflexivity|]. split.
  - added_events. reflexivity.
  - by rewrite added_log.
Qed.

(** C5, as worded, fails on the text of the error: the reply to LOOKUP after
    DELETE does not read "device does not exist". *)
Lemma lookup_404_text_differs :
  ¬ deleted_lookup_404 "device does not exist" NullAsserts
      (zm_device_new []) "writer"
      (device_v1 "device1" 0 0) (device_v1 "device1" 0 0).
Proof.
  intros (w1 & w2 & ok & err & H1 & H2 & _ & _ & Hr & _ & _ & Htext).
  destruct (delete_lookup_steps NullAsserts (zm_device_new [])
              mlm_client_new "writer" "writer"
              (device_v1 "device1" 0 0) (device_v1 "device1" 0 0)
              eq_refl eq_refl) as (v1 & v2 & E1 & E2 & _ & Ea).
  rewrite E1 in H1. injection H1 as <-.
  rewrite E2 in H2. injection H2 as <-.
  rewrite Ea in Hr. injection Hr as <-.
  discriminate Htext.
Qed.

(** C5, amended: for every registry and every device name, whether or not
    the registry holds it, DELETE is answered by an OK status and the LOOKUP
    of that name that follows is answered by an error status with code 404
    and the text "Requested device does not exists", both under the subject
    LOOKUP. *)
Theorem delete_then_lookup on_null (w : world) (c : mlm_client_t)
    (who : string) (dreq lreq : zm_proto_t) :
  client (self w) = Some c →
  zm_proto_device lreq = zm_proto_device dreq →
  deleted_lookup_404 "Requested device does not exists" on_null w who
    dreq lreq.
Proof.
  intros Hc Hq.
  destruct (delete_lookup_steps on_null w c who who dreq lreq Hc Hq)
    as (w1 & w2 & E1 & E2 & Ed & Ea).
  exists w1, w2, (zm_proto_encode_ok dreq),
    (zm_proto_encode_error lreq 404 "Requested device does not exists").
  rewrite Ed, Ea. by repeat split.
Qed.

Lemma delete_then_lookup_witness :
  deleted_lookup_404 "Requested device does not exists" NullAsserts
    (actor_with [device_v1 "device1" 7 1024]) "writer"
    (device_v1 "device1" 0 0) (device_v1 "device1" 0 0).
Proof.
  apply (delete_then_lookup NullAsserts
           (actor_with [device_v1 "device1" 7 1024]) mlm_client_new);
    reflexivity.
Defined.

(** C6: the effects of INSERT and of DELETE come in this order: the registry
    is changed, then the request is published on the producer stream under
    the subject of the request, then the OK status goes to the sender; the
    handler adds nothing else, and the registry it leaves is the one changed
    in the first step. *)
Theorem insert_delete_effect_order on_null (w : world) (c : mlm_client_t) :
  client (self w) = Some c →
  let m := msg (self w) in
  let ack := ClientSendto (mlm_client_sender c) "LOOKUP" (zm_proto_encode_ok m) in
  (mlm_client_subject c = "INSERT" →
   ∃ w', zm_device_recv_mlm_mailbox on_null w = Ret w' ∧
         added w w' = [DevicesInsert m; ClientSend "INSERT" m; ack] ∧
         items (devices (self w')) = upsert m (items (devices (self w)))) ∧
  (mlm_client_subject c = "DELETE" →
   ∃ w', zm_device_recv_mlm_mailbox on_null w = Ret w' ∧
         added w w' = [DevicesDelete (zm_proto_device m);
                       ClientSend "DELETE" m; ack] ∧
         items (devices (self w')) =
           remove (zm_proto_device m) (items (devices (self w)))).
Proof.
  intros Hc m ack. split; intros Hs.
  - rewrite (mailbox_insert on_null w c Hc Hs).
    eexists. split; [reflexivity|]. split; [|reflexivity].
    added_events. reflexivity.
  - rewrite (mailbox_delete on_null w c Hc Hs).
    eexists. split; [reflexivity|]. split; [|reflexivity].
    added_events. reflexivity.
Qed.

Lemma insert_delete_effect_order_witness :
  let d := device_v1 "device1" 7 1024 in
  ∃ w', zm_device_recv_mlm_mailbox NullAsserts
          (arrived "writer" "INSERT" d (zm_device_new [])) = Ret w' ∧
        trace w' = [DevicesInsert d; ClientSend "INSERT" d;
                    ClientSendto "writer" "LOOKUP" (zm_proto_encode_ok d)].
Proof.
  intros d.
  destruct (insert_delete_effect_order NullAsserts
              (arrived "writer" "INSERT" d (zm_device_new [])) _ eq_refl)
    as [Hins _].
  destruct (Hins eq_refl) as (w' & Hrun & Hadded & _).
  exists w'. split; [exact Hrun|]. exact Hadded.
Defined.

(** * Further properties of the mailbox protocol handler *)

Lemma index_of_None (name : string) (l : list zm_proto_t) :
  index_of name l = None → ∀ x, x ∈ l → device x ≠ name.
Proof.
  induction l as [|y l IH]; cbn; intros Hi x Hx.
  - by apply elem_of_nil in Hx.
  - case_decide as Hy; [done|].
    destruct (index_of name l) as [k|]; [done|].
    apply elem_of_cons in Hx as [->|Hx]; [done|]. by apply IH.
Qed.

Lemma remove_absent (name : string) (l : list zm_proto_t) :
  (∀ x, x ∈ l → device x ≠ name) → remove name l = l.
Proof.
  intros Hl. unfold remove. induction l as [|y l IH]; [done|].
  rewrite filter_cons, decide_True by (apply Hl; left).
  rewrite IH; [done|]. intros x Hx. apply Hl. by right.
Qed.

(** The records of a GET-ALL or PUBLISH-ALL sequence, position by
    position. *)
Lemma tagged_records (m : zm_proto_t) (l : list zm_proto_t) (j : nat) :
  (Z.of_nat (S (length l)) ≤ 2 ^ 64)%Z →
  tag_from 0 (ext_set_int "_cnt" (Z.of_nat (S (length l))) m :: l) !! j =
  ext_set_int "_seq" (Z.of_nat j) <$>
    (ext_set_int "_cnt" (Z.of_nat (S (length l))) m :: l) !! j.
Proof.
  intros Hlen.
  destruct ((ext_set_int "_cnt" (Z.of_nat (S (length l))) m :: l) !! j)
    as [x|] eqn:Hx.
  - rewrite (tag_from_lookup _ 0 j x); [done | lia | | done].
    cbn [length]. lia.
  - apply lookup_ge_None. rewrite length_tag_from. by apply lookup_ge_None.
Qed.

(** X1: GET-ALL on an empty registry is answered by exactly one message, an
    error status with code 404 and the text "No devices", to the sender
    under the subject LOOKUP, and the registry is left as it was. *)
Theorem get_all_empty_replies_404 on_null (w : world) (c : mlm_client_t) :
  client (self w) = Some c →
  mlm_client_subject c = "GET-ALL" →
  items (devices (self w)) = [] →
  ∃ w', zm_device_recv_mlm_mailbox on_null w = Ret w' ∧
        added w w' = [ClientSendto (mlm_client_sender c) "LOOKUP"
                        (zm_proto_encode_error (msg (self w)) 404 "No devices")] ∧
        devices (self w') = devices (self w).
Proof.
  intros Hc Hs Hl. rewrite (mailbox_get_all_empty on_null w c Hc Hs Hl).
  eexists. split; [reflexivity|]. split; [|reflexivity].
  by rewrite added_log.
Qed.

Lemma get_all_empty_replies_404_witness :
  let w := arrived "writer" "GET-ALL" (device_v1 "any" 0 0) (zm_device_new []) in
  ∃ w', zm_device_recv_mlm_mailbox NullAsserts w = Ret w' ∧
        added w w' = [ClientSendto "writer" "LOOKUP"
                        (zm_proto_encode_error (device_v1 "any" 0 0) 404
                           "No devices")] ∧
        devices (self w') = devices (self w).
Proof.
  intros w.
  apply (get_all_empty_replies_404 NullAsserts w _ eq_refl); reflexivity.
Defined.

(** X2: a request under a subject that is none of INSERT, DELETE, LOOKUP,
    GET-ALL and PUBLISH-ALL is answered, whatever its body, by exactly one
    message, an error status with code 403 and the text "Subject not found",
    to the sender under the subject LOOKUP; the registry is left as it
    was. *)
Theorem unknown_subject_replies_403 on_null (w : world) (c : mlm_client_t) :
  client (self w) = Some c →
  mlm_client_subject c ∉ ["INSERT"; "DELETE"; "LOOKUP"; "GET-ALL"; "PUBLISH-ALL"] →
  ∃ w', zm_device_recv_mlm_mailbox on_null w = Ret w' ∧
        added w w' = [ClientSendto (mlm_client_sender c) "LOOKUP"
                        (zm_proto_encode_error (msg (self w)) 403
                           "Subject not found")] ∧
        devices (self w') = devices (self w).
Proof.
  intros Hc Hs. rewrite (mailbox_unknown on_null w c Hc Hs).
  eexists. split; [reflexivity|]. split; [|reflexivity].
  by rewrite added_log.
Qed.

Lemma unknown_subject_replies_403_witness :
  let w := arrived "writer" "UPDATE" (device_v1 "device1" 7 1024)
             (zm_device_new []) in
  ∃ w', zm_device_recv_mlm_mailbox NullAsserts w = Ret w' ∧
        added w w' = [ClientSendto "writer" "LOOKUP"
                        (zm_proto_encode_error (device_v1 "device1" 7 1024) 403
                           "Subject not found")] ∧
        devices (self w') = devices (self w).
Proof.
  intros w.
  apply (unknown_subject_replies_403 NullAsserts w _ eq_refl).
  intros H. repeat (apply elem_of_cons in H as [H|H]; [discriminate H|]).
  by apply elem_of_nil in H.
Defined.

(** A registry of two records for X3. *)
Lemma get_all_replies_witness :
  ∃ w' rs,
    zm_device_recv_mlm_mailbox NullAsserts
      (arrived "writer" "GET-ALL" (device_v1 "any" 0 0)
         (actor_with [device_v1 "device1" 7 1024; device_v1 "device2" 8 9]))
    = Ret w' ∧
    replies (trace w') = rs ∧ length rs = 2%nat.
Proof.
  destruct (get_all_replies NullAsserts
              (arrived "writer" "GET-ALL" (device_v1 "any" 0 0)
                 (actor_with [device_v1 "device1" 7 1024; device_v1 "device2" 8 9]))
              _ (device_v1 "device1" 7 1024) [device_v1 "device2" 8 9]
              eq_refl eq_refl eq_refl)
    as (w' & rs & Hrun & Hrs & Hlen & _).
  - cbn. lia.
  - exists w', rs. split; [exact Hrun|]. split; [exact Hrs | exact Hlen].
Defined.

(** X4: PUBLISH-ALL on a registry of N >= 1 records publishes exactly N
    messages under the subject PUBLISH-ALL and sends no point-to-point reply
    at all; the message at position j is the record at position j with
    [_seq] = j, and the first message has [_cnt] = N. *)
Theorem publish_all_broadcasts on_null (w : world) (c : mlm_client_t)
    (m : zm_proto_t) (l : list zm_proto_t) :
  client (self w) = Some c →
  mlm_client_subject c = "PUBLISH-ALL" →
  items (devices (self w)) = m :: l →
  (Z.of_nat (S (length l)) ≤ 2 ^ 64)%Z →
  ∃ w' bs,
    zm_device_recv_mlm_mailbox on_null w = Ret w' ∧
    added w w' = ClientSend "PUBLISH-ALL" <$> bs ∧
    replies (added w w') = [] ∧
    length bs = S (length l) ∧
    (∀ j b, bs !! j = Some b →
       zm_proto_ext_int b "_seq" (-1) = Z.of_nat j ∧
       zm_proto_device <$> Some b = zm_proto_device <$> (m :: l) !! j) ∧
    (∀ b, bs !! O = Some b →
       zm_proto_ext_int b "_cnt" (-1) = Z.of_nat (S (length l))).
Proof.
  intros Hc Hs Hitems Hlen.
  eexists _, _. split; [by apply (publish_all_spec on_null w c)|].
  split; [by added_events|].
  split; [erewrite added_app by reflexivity; apply replies_send|].
  split; [by rewrite length_tag_from|].
  split.
  - intros j b Hb. rewrite tagged_records in Hb by done.
    destruct (_ !! j) as [x|] eqn:Hx; [|done]. injection Hb as <-.
    split; [apply zm_proto_ext_int_set|].
    destruct j; cbn in Hx |- *.
    + by injection Hx as <-.
    + by rewrite Hx.
  - intros b Hb. rewrite tagged_records in Hb by done.
    injection Hb as <-.
    rewrite zm_proto_ext_int_set_ne by discriminate.
    apply zm_proto_ext_int_set.
Qed.

Lemma publish_all_broadcasts_witness :
  let w := arrived "writer" "PUBLISH-ALL" (device_v1 "any" 0 0)
             (actor_with [device_v1 "device1" 7 1024; device_v1 "device2" 8 9]) in
  ∃ w' bs,
    zm_device_recv_mlm_mailbox NullAsserts w = Ret w' ∧
    added w w' = ClientSend "PUBLISH-ALL" <$> bs ∧
    length bs = 2%nat.
Proof.
  intros w.
  destruct (publish_all_broadcasts NullAsserts w _
              (device_v1 "device1" 7 1024) [device_v1 "device2" 8 9]
              eq_refl eq_refl eq_refl)
    as (w' & bs & Hrun & Hadded & _ & Hlen & _).
  - cbn. lia.
  - exists w', bs. split; [exact Hrun|]. split; [exact Hadded | exact Hlen].
Defined.

Lemma device_tag_from (l : list zm_proto_t) :
  ∀ i, zm_proto_device <$> tag_from i l = zm_proto_device <$> l.
Proof. induction l as [|x l IH]; intros i; cbn; [done|]. by rewrite IH. Qed.

(** X5: GET-ALL writes its annotations into the records of the registry
    themselves.  After GET-ALL on N >= 1 records the registry holds the same
    number of records under the same names in the same order, and the stored
    record at position j carries [_seq] = j (the first one also
    [_cnt] = N). *)
Theorem get_all_tags_registry on_null (w : world) (c : mlm_client_t)
    (m : zm_proto_t) (l : list zm_proto_t) :
  client (self w) = Some c →
  mlm_client_subject c = "GET-ALL" →
  items (devices (self w)) = m :: l →
  (Z.of_nat (S (length l)) ≤ 2 ^ 64)%Z →
  ∃ w',
    zm_device_recv_mlm_mailbox on_null w = Ret w' ∧
    zm_proto_device <$> items (devices (self w')) = zm_proto_device <$> (m :: l) ∧
    (∀ j x, items (devices (self w')) !! j = Some x →
       zm_proto_ext_int x "_seq" (-1) = Z.of_nat j) ∧
    (∀ x, items (devices (self w')) !! O = Some x →
       zm_proto_ext_int x "_cnt" (-1) = Z.of_nat (S (length l))).
Proof.
  intros Hc Hs Hitems Hlen.
  eexists. split; [by apply (get_all_spec on_null w c)|].
  cbn [after_send_all self set_devices with_self devices items app].
  split; [by rewrite device_tag_from|]. split.
  - intros j x Hx. rewrite tagged_records in Hx by done.
    destruct (_ !! j) as [y|]; [|done]. injection Hx as <-.
    apply zm_proto_ext_int_set.
  - intros x Hx. rewrite tagged_records in Hx by done.
    injection Hx as <-.
    rewrite zm_proto_ext_int_set_ne by discriminate.
    apply zm_proto_ext_int_set.
Qed.

Lemma get_all_tags_registry_witness :
  let w := arrived "writer" "GET-ALL" (device_v1 "any" 0 0)
             (actor_with [device_v1 "device1" 7 1024; device_v1 "device2" 8 9]) in
  ∃ w',
    zm_device_recv_mlm_mailbox NullAsserts w = Ret w' ∧
    zm_proto_device <$> items (devices (self w')) = ["device1"; "device2"].
Proof.
  intros w.
  destruct (get_all_tags_registry NullAsserts w _
              (device_v1 "device1" 7 1024) [device_v1 "device2" 8 9]
              eq_refl eq_refl eq_refl)
    as (w' & Hrun & Hnames & _).
  - cbn. lia.
  - exists w'. split; [exact Hrun | exact Hnames].
Defined.

(** X6: LOOKUP is read-only and is answered by exactly one message, to the
    sender under the subject LOOKUP: a record of the registry whose name is
    the requested one, or, when the registry holds no record of that name,
    the error status 404; the registry is the same afterwards. *)
Theorem lookup_reply on_null (w : world) (c : mlm_client_t) :
  client (self w) = Some c →
  mlm_client_subject c = "LOOKUP" →
  ∃ w' r,
    zm_device_recv_mlm_mailbox on_null w = Ret w' ∧
    added w w' = [ClientSendto (mlm_client_sender c) "LOOKUP" r] ∧
    devices (self w') = devices (self w) ∧
    ((r ∈ items (devices (self w)) ∧
      zm_proto_device r = zm_proto_device (msg (self w))) ∨
     ((∀ x, x ∈ items (devices (self w)) →
            zm_proto_device x ≠ zm_proto_device (msg (self w))) ∧
      id r = ZM_PROTO_ERROR ∧ code r = 404)).
Proof.
  intros Hc Hs.
  destruct (index_of (zm_proto_device (msg (self w)))
              (items (devices (self w)))) as [i|] eqn:Hi.
  - destruct (index_of_lookup _ _ _ Hi) as (d & Hd & Hname).
    rewrite (mailbox_lookup_found on_null w c Hc i d Hs Hi Hd).
    eexists _, _. split; [reflexivity|].
    split; [by rewrite added_log|]. split; [reflexivity|].
    left. split; [|done]. by eapply list_elem_of_lookup_2.
  - rewrite (mailbox_lookup_missing on_null w c Hc Hs Hi).
    eexists _, _. split; [reflexivity|].
    split; [by rewrite added_log|]. split; [reflexivity|].
    right. split; [|done]. by apply index_of_None.
Qed.

Lemma lookup_reply_witness :
  let w := arrived "writer" "LOOKUP" (device_v1 "device2" 0 0)
             (actor_with [device_v1 "device1" 7 1024; device_v1 "device2" 8 9]) in
  ∃ w' r,
    zm_device_recv_mlm_mailbox NullAsserts w = Ret w' ∧
    added w w' = [ClientSendto "writer" "LOOKUP" r] ∧
    devices (self w') = devices (self w).
Proof.
  intros w.
  destruct (lookup_reply NullAsserts w _ eq_refl eq_refl)
    as (w' & r & Hrun & Hadded & Hsame & _).
  exists w', r. split; [exact Hrun|]. split; [exact Hadded | exact Hsame].
Defined.

(** X7: DELETE of a name the registry does not hold leaves the records of
    the registry as they were, and is still published under the subject
    DELETE and acknowledged with an OK status. *)
Theorem delete_absent on_null (w : world) (c : mlm_client_t) :
  client (self w) = Some c →
  mlm_client_subject c = "DELETE" →
  (∀ x, x ∈ items (devices (self w)) →
        zm_proto_device x ≠ zm_proto_device (msg (self w))) →
  ∃ w',
    zm_device_recv_mlm_mailbox on_null w = Ret w' ∧
    items (devices (self w')) = items (devices (self w)) ∧
    added w w' = [DevicesDelete (zm_proto_device (msg (self w)));
                  ClientSend "DELETE" (msg (self w));
                  ClientSendto (mlm_client_sender c) "LOOKUP"
                    (zm_proto_encode_ok (msg (self w)))].
Proof.
  intros Hc Hs Habsent. rewrite (mailbox_delete on_null w c Hc Hs).
  eexists. split; [reflexivity|]. split.
  - cbn. by apply remove_absent.
  - by added_events.
Qed.

Lemma delete_absent_witness :
  let w := arrived "writer" "DELETE" (device_v1 "device9" 0 0)
             (actor_with [device_v1 "device1" 7 1024]) in
  ∃ w',
    zm_device_recv_mlm_mailbox NullAsserts w = Ret w' ∧
    items (devices (self w')) = [device_v1 "device1" 7 1024].
Proof.
  intros w.
  destruct (delete_absent NullAsserts w _ eq_refl eq_refl)
    as (w' & Hrun & Hitems & _).
  - intros x Hx. apply list_elem_of_singleton in Hx as ->. discriminate.
  - exists w'. split; [exact Hrun | exact Hitems].
Defined.

(** X8: whatever the subject, a mailbox request that the handler returns
    from changes nothing but the buffer, the records and the cursor of the
    registry, and the trace: the backing files are not written (nothing is
    persisted by INSERT or DELETE), and the configuration, the client, the
    poller, the flags and the file the registry is bound to stay as they
    were. *)
Theorem mailbox_frame on_null (w w' : world) :
  zm_device_recv_mlm_mailbox on_null w = Ret w' →
  disk w' = disk w ∧
  file (devices (self w')) = file (devices (self w)) ∧
  config (self w') = config (self w) ∧
  client (self w') = client (self w) ∧
  consumers (self w') = consumers (self w) ∧
  poller (self w') = poller (self w) ∧
  terminated (self w') = terminated (self w) ∧
  verbose (self w') = verbose (self w).
Proof.
  destruct (client (self w)) as [c|] eqn:Hc.
  2:{ unfold zm_device_recv_mlm_mailbox. by rewrite Hc. }
  destruct (decide (mlm_client_subject c = "GET-ALL")) as [Hs|Hget].
  { destruct (items (devices (self w))) as [|m l] eqn:Hl.
    - rewrite (mailbox_get_all_empty on_null w c Hc Hs Hl). by intros [= <-].
    - rewrite (get_all_spec on_null w c m l Hc Hs Hl). by intros [= <-]. }
  destruct (decide (mlm_client_subject c = "PUBLISH-ALL")) as [Hs|Hpa].
  { destruct (items (devices (self w))) as [|m l] eqn:Hl.
    - unfold zm_device_recv_mlm_mailbox. rewrite Hc, Hs.
      repeat (rewrite decide_False by discriminate).
      rewrite decide_True by reflexivity.
      unfold zm_devices_first. rewrite Hl.
      destruct on_null; [done|]. by intros [= <-].
    - rewrite (publish_all_spec on_null w c m l Hc Hs Hl). by intros [= <-]. }
  destruct (decide (mlm_client_subject c = "INSERT")) as [Hs|Hins].
  { rewrite (mailbox_insert on_null w c Hc Hs). by intros [= <-]. }
  destruct (decide (mlm_client_subject c = "DELETE")) as [Hs|Hdel].
  { rewrite (mailbox_delete on_null w c Hc Hs). by intros [= <-]. }
  destruct (decide (mlm_client_subject c = "LOOKUP")) as [Hs|Hlook].
  { destruct (index_of (zm_proto_device (msg (self w)))
                (items (devices (self w)))) as [i|] eqn:Hi.
    - destruct (index_of_lookup _ _ _ Hi) as (d & Hd & _).
      rewrite (mailbox_lookup_found on_null w c Hc i d Hs Hi Hd).
      by intros [= <-].
    - rewrite (mailbox_lookup_missing on_null w c Hc Hs Hi).
      by intros [= <-]. }
  rewrite (mailbox_unknown on_null w c Hc) by not_a_subject.
  by intros [= <-].
Qed.

Lemma mailbox_frame_witness :
  let w := arrived "writer" "INSERT" (device_v1 "device1" 7 1024)
             (actor_on "devices.zpl" []) in
  ∃ w', zm_device_recv_mlm_mailbox NullAsserts w = Ret w' ∧
        disk w' = [] ∧ file (devices (self w')) = Some "devices.zpl".
Proof.
  intros w.
  eassert (Hrun : zm_device_recv_mlm_mailbox NullAsserts w = Ret _)
    by (vm_compute; reflexivity).
  eexists. split; [exact Hrun|].
  destruct (mailbox_frame NullAsserts w _ Hrun) as (Hdisk & Hfile & _).
  split; [exact Hdisk | exact Hfile].
Defined.

(** X9: a delivery that does not decode, and a delivery that is not a
    MAILBOX DELIVER (a STREAM DELIVER among them), produce no traffic and
    leave the registry and the backing files as they were. *)
Theorem recv_mlm_drops on_null (d : delivery) (w : world) (c : mlm_client_t) :
  client (self w) = Some c →
  d_content d = None ∨ d_command d ≠ "MAILBOX DELIVER" →
  ∃ w', zm_device_recv_mlm on_null d w = Ret w' ∧
        trace w' = trace w ∧
        devices (self w') = devices (self w) ∧
        disk w' = disk w.
Proof.
  intros Hc Hd. unfold zm_device_recv_mlm. rewrite Hc.
  destruct (d_content d) as [m|].
  - destruct Hd as [?|Hd]; [done|].
    rewrite decide_False by done.
    case_decide; eexists; by split.
  - eexists. by split.
Qed.

Lemma recv_mlm_drops_witness :
  let w := actor_with [device_v1 "device1" 7 1024] in
  ∃ w', zm_device_recv_mlm NullAsserts
          {| d_command := "STREAM DELIVER"; d_sender := "writer";
             d_subject := "INSERT";
             d_content := Some (device_v1 "device2" 8 9) |} w = Ret w' ∧
        trace w' = trace w ∧
        devices (self w') = devices (self w) ∧
        disk w' = disk w.
Proof.
  intros w.
  apply (recv_mlm_drops NullAsserts _ w mlm_client_new eq_refl).
  right. discriminate.
Defined.

(** * Further properties of the connection to the broker *)

(** X10: START without a configuration, or with a configuration that lacks
    [malamute/endpoint] or [malamute/address], fails with -1 and changes
    nothing: no client is created, nothing is sent to the broker, and the
    command handler returns normally. *)
Theorem start_without_endpoint_or_address on_null load cok pok sok
    (w : world) (frames : list string) :
  zm_device_cfg_endpoint w = None ∨ zm_device_cfg_address w = None →
  zm_device_start cok pok sok w = (-1, w) ∧
  zm_device_recv_api on_null load cok pok sok w (Some ("START" :: frames))
  = Ret w.
Proof.
  intros Hcfg.
  assert (Hstart : zm_device_start cok pok sok w = (-1, w)).
  { unfold zm_device_start, zm_device_connect_to_malamute.
    unfold zm_device_cfg_endpoint, zm_device_cfg_address in *.
    destruct (config (self w)) as [cfg|]; [|done].
    destruct (zconfig_resolve cfg ["malamute"; "endpoint"]); [|done].
    destruct (zconfig_resolve cfg ["malamute"; "address"]); [|done].
    by destruct Hcfg. }
  split; [exact Hstart|].
  unfold zm_device_recv_api. rewrite decide_True by reflexivity.
  by rewrite Hstart.
Qed.

Lemma start_without_endpoint_or_address_witness :
  let w := zm_device_new [] in
  zm_device_start always (fun _ => true) always w = (-1, w) ∧
  zm_device_recv_api NullAsserts sample_load always (fun _ => true) always w
    (Some ["START"]) = Ret w.
Proof.
  intros w.
  apply (start_without_endpoint_or_address NullAsserts sample_load always
           (fun _ => true) always w []).
  left. reflexivity.
Defined.

(** X11: when the broker refuses the connection, START fails with -1 and
    declares neither producer nor consumer; nothing is added to the trace
    and the registry is untouched.  An actor that had a client is unchanged;
    one that had none has a new client afterwards. *)
Theorem start_refused cok pok sok (w : world) (endpoint address : string) :
  zm_device_cfg_endpoint w = Some endpoint →
  zm_device_cfg_address w = Some address →
  cok endpoint address = false →
  ∃ w', zm_device_start cok pok sok w = (-1, w') ∧
        trace w' = trace w ∧
        devices (self w') = devices (self w) ∧
        (is_Some (client (self w)) → w' = w) ∧
        (client (self w) = None →
         client (self w') = Some mlm_client_new ∧
         poller (self w') = poller (self w) ++ [MsgPipe]).
Proof.
  intros He Ha Hcok.
  unfold zm_device_start, zm_device_connect_to_malamute.
  rewrite He, Ha.
  unfold zm_device_cfg_endpoint in He.
  destruct (config (self w)) as [cfg|]; [|done].
  destruct (client (self w)) as [c|] eqn:Hc; rewrite Hcok; cbn.
  - eexists. split; [reflexivity|]. repeat split; done.
  - eexists. split; [reflexivity|].
    repeat split; done.
Qed.

Lemma start_refused_witness :
  let w := set_config (Some sample_config) (zm_device_new []) in
  ∃ w', zm_device_start (fun _ _ => false) (fun _ => true) always w = (-1, w') ∧
        trace w' = trace w.
Proof.
  intros w.
  destruct (start_refused (fun _ _ => false) (fun _ => true) always w
              "inproc://zm-device-test" "it.zmon.device" eq_refl eq_refl eq_refl)
    as (w' & Hrun & Htrace & _).
  exists w'. split; [exact Hrun | exact Htrace].
Defined.

(** What the loop over the consumers returns, adds to the trace and leaves
    alone. *)
Lemma declare_consumers_spec sok (h : list (string * option string)) :
  ∀ w : world,
    ∃ w', declare_consumers sok h w
          = (if decide (accepted sok (patterns h) = patterns h) then 0 else -1,
             w') ∧
          trace w' = trace w ++ (consumer_event <$> accepted sok (patterns h)) ∧
          (is_Some (client (self w)) → is_Some (client (self w'))) ∧
          poller (self w') = poller (self w) ∧
          devices (self w') = devices (self w) ∧
          config (self w') = config (self w) ∧
          consumers (self w') = consumers (self w) ∧
          disk w' = disk w.
Proof.
  induction h as [|[stream [pattern|]] h IH]; intros w; cbn.
  - exists w. rewrite decide_True by done. by rewrite app_nil_r.
  - destruct (sok stream pattern) eqn:Hok.
    + edestruct IH as (w' & -> & Htrace & Hclient & Hrest).
      exists w'. split.
      * f_equal. repeat case_decide; try done; congruence.
      * split; [rewrite Htrace; cbn; by rewrite <- app_assoc|].
        split; [|exact Hrest].
        intros [c Hc]. apply Hclient. cbn. rewrite Hc. by eexists.
    + exists w. rewrite decide_False by done. by rewrite app_nil_r.
  - exists w. rewrite decide_True by done. by rewrite app_nil_r.
Qed.

(** X12: the consumers are declared in the order of the table; the loop
    stops with 0 at the end of the table or at an entry without a pattern,
    and with -1 at the first consumer the broker refuses, in which case the
    consumers declared before it stay declared (nothing is rolled back).
    The loop touches neither the registry nor the backing files. *)
Theorem declare_consumers_in_order sok (h : list (string * option string))
    (w : world) :
  ∃ w', declare_consumers sok h w
        = (if decide (accepted sok (patterns h) = patterns h) then 0 else -1,
           w') ∧
        added w w' = consumer_event <$> accepted sok (patterns h) ∧
        devices (self w') = devices (self w) ∧
        disk w' = disk w.
Proof.
  destruct (declare_consumers_spec sok h w)
    as (w' & Hrun & Htr & _ & _ & Hds & _ & _ & Hdk).
  exists w'. split; [exact Hrun|].
  split; [by apply added_app|]. by split.
Qed.





(** Whatever the broker answers, START with endpoint and address configured
    leaves the actor with a client, adds the message pipe to the poller
    exactly when it had to create the client, and touches neither the
    registry nor the backing files. *)
Lemma start_frame cok pok sok (w : world) (endpoint address : string) :
  zm_device_cfg_endpoint w = Some endpoint →
  zm_device_cfg_address w = Some address →
  ∃ r w', zm_device_start cok pok sok w = (r, w') ∧
          is_Some (client (self w')) ∧
          poller (self w') =
            poller (self w) ++
            match client (self w) with Some _ => [] | None => [MsgPipe] end ∧
          devices (self w') = devices (self w) ∧
          disk w' = disk w.
Proof.
  intros He Ha.
  assert (is_Some (config (self w))) as [cfg Hcfg].
  { unfold zm_device_cfg_endpoint in He.
    destruct (config (self w)); [by eexists | done]. }
  unfold zm_device_start, zm_device_connect_to_malamute.
  rewrite Hcfg, He, Ha.
  set (w1 := match client (self w) with Some _ => w | None => _ end).
  assert (Hw1 : is_Some (client (self w1)) ∧
                poller (self w1) =
                  poller (self w) ++
                  match client (self w) with Some _ => [] | None => [MsgPipe] end ∧
                devices (self w1) = devices (self w) ∧ disk w1 = disk w).
  { subst w1. destruct (client (self w)) as [c|] eqn:Hc; cbn.
    - rewrite Hc, app_nil_r. by eauto.
    - by eauto. }
  destruct Hw1 as ([c1 Hcl1] & Hp1 & Hd1 & Hk1). clearbody w1.
  destruct (cok endpoint address); cbn [negb].
  2:{ eexists _, _. split; [reflexivity|]. by eauto. }
  match goal with
  | |- context [zm_device_cfg_producer ?w0] => set (w2 := w0)
  end.
  assert (Hw2 : is_Some (client (self w2)) ∧ poller (self w2) = poller (self w1) ∧
                devices (self w2) = devices (self w1) ∧ disk w2 = disk w1).
  { subst w2. cbn. rewrite Hcl1. cbn. by eauto. }
  destruct Hw2 as ([c2 Hcl2] & Hp2 & Hd2 & Hk2). clearbody w2.
  assert (Hloop : ∀ w3 : world,
            is_Some (client (self w3)) → poller (self w3) = poller (self w2) →
            devices (self w3) = devices (self w2) → disk w3 = disk w2 →
            ∃ r w',
              (let '(r, w') :=
                 declare_consumers sok (zm_device_cfg_consumers w3)
                   (set_consumers (Some (zm_device_cfg_consumers w3)) w3) in
               if decide (r = -1) then (r, w') else (0, w')) = (r, w') ∧
              is_Some (client (self w')) ∧
              poller (self w') =
                poller (self w) ++
                match client (self w) with Some _ => [] | None => [MsgPipe] end ∧
              devices (self w') = devices (self w) ∧ disk w' = disk w).
  { intros w3 Hcl3 Hp3 Hd3 Hk3.
    destruct (declare_consumers_spec sok (zm_device_cfg_consumers w3)
                (set_consumers (Some (zm_device_cfg_consumers w3)) w3))
      as (w' & -> & _ & Hcl & Hp & Hd & _ & _ & Hk).
    assert (is_Some (client (self w')) ∧
            poller (self w') =
              poller (self w) ++
              match client (self w) with Some _ => [] | None => [MsgPipe] end ∧
            devices (self w') = devices (self w) ∧ disk w' = disk w) as Hall.
    { split; [by apply Hcl|]. rewrite Hp, Hd, Hk. cbn.
      by rewrite Hp3, Hd3, Hk3, Hp2, Hd2, Hk2. }
    case_decide; eexists _, _; (split; [reflexivity | exact Hall]). }
  destruct (zm_device_cfg_producer w2) as [s|].
  - destruct (pok s).
    + apply Hloop; cbn; rewrite ?Hcl2; by eauto.
    + eexists _, _. split; [reflexivity|].
      rewrite Hp2, Hd2, Hk2. by eauto.
  - apply Hloop; by eauto.
Qed.

(** X14: STOP followed by START, with endpoint and address configured and
    whatever the broker answers, leaves the actor with a client again and
    with the message pipe in the poller (the poller without it, then it at
    the end); the registry in memory is the one before the STOP. *)
Theorem stop_then_start on_null cok pok sok (w : world) (c : mlm_client_t)
    (endpoint address : string) :
  client (self w) = Some c →
  zm_device_cfg_endpoint w = Some endpoint →
  zm_device_cfg_address w = Some address →
  ∃ w1 r w2,
    zm_device_stop on_null w = Ret (0, w1) ∧
    zm_device_start cok pok sok w1 = (r, w2) ∧
    is_Some (client (self w2)) ∧
    poller (self w2) = filter (fun x => x ≠ MsgPipe) (poller (self w)) ++ [MsgPipe] ∧
    devices (self w2) = devices (self w).
Proof.
  intros Hc He Ha. rewrite (zm_device_stop_with_client on_null w c Hc).
  set (w1 := zm_devices_store _).
  destruct (start_frame cok pok sok w1 endpoint address He Ha)
    as (r & w2 & Hrun & Hcl & Hp & Hd & _).
  exists w1, r, w2. split; [reflexivity|]. split; [exact Hrun|].
  split; [exact Hcl|]. split; [exact Hp | exact Hd].
Qed.

Lemma stop_then_start_witness :
  let w := set_config (Some sample_config) (zm_device_new []) in
  ∃ w1 r w2,
    zm_device_stop NullAsserts w = Ret (0, w1) ∧
    zm_device_start always (fun _ => true) always w1 = (r, w2) ∧
    is_Some (client (self w2)) ∧
    poller (self w2) = [Pipe; MsgPipe] ∧
    devices (self w2) = devices (self w).
Proof.
  intros w.
  apply (stop_then_start NullAsserts always (fun _ => true) always w
           mlm_client_new "inproc://zm-device-test" "it.zmon.device");
    reflexivity.
Defined.

(** * Further properties of CONFIG and of the actor's loop *)

Lemma disk_read_write f l d : disk_read f (disk_write f l d) = l.
Proof.
  induction d as [|[g k] d IH]; cbn.
  - by rewrite decide_True.
  - destruct (decide (g = f)) as [->|Hne]; cbn.
    + by rewrite decide_True.
    + by rewrite decide_False.
Qed.

Lemma disk_read_write_ne f g l d :
  f ≠ g → disk_read f (disk_write g l d) = disk_read f d.
Proof.
  intros Hfg. induction d as [|[g' k] d IH]; cbn.
  - by rewrite decide_False.
  - destruct (decide (g' = g)) as [->|Hne]; cbn.
    + by rewrite !decide_False.
    + by rewrite IH.
Qed.

(** X15: a CONFIG that names the backing file [f], given to an actor whose
    registry has no file yet or is already bound to [f], keeps the records
    of the registry: they are written to [f], and the registry that replaces
    the old one holds the same records and is bound to [f]. *)
Theorem config_keeps_records (load : string -> option zconfig_t)
    (w : world) (payload : string) (rest : list string) (foo : zconfig_t)
    (f : string) :
  load payload = Some foo →
  zconfig_resolve foo ["server"; "file"] = Some f →
  file (devices (self w)) = None ∨ file (devices (self w)) = Some f →
  ∃ w', zm_device_config load w (payload :: rest) = (0, w') ∧
        items (devices (self w')) = items (devices (self w)) ∧
        file (devices (self w')) = Some f ∧
        disk_read f (disk w') = items (devices (self w)).
Proof.
  intros Hload Hf Hfile. unfold zm_device_config. rewrite Hload.
  unfold zm_device_cfg_file. cbn [set_config with_self self config].
  rewrite Hf.
  destruct w as [[po te ve co cl cs ms [fl it cu]] dk tr].
  cbn in Hfile.
  destruct Hfile as [->| ->]; cbn; eexists; (split; [reflexivity|]); cbn;
    by rewrite disk_read_write.
Qed.

Lemma config_keeps_records_witness :
  let w := actor_with [device_v1 "device1" 7 1024] in
  ∃ w', zm_device_config sample_load w ["malamute+server"] = (0, w') ∧
        items (devices (self w')) = [device_v1 "device1" 7 1024] ∧
        file (devices (self w')) = Some "devices.zpl" ∧
        disk_read "devices.zpl" (disk w') = [device_v1 "device1" 7 1024].
Proof.
  intros w.
  apply (config_keeps_records sample_load w "malamute+server" []
           (sample_config_file "devices.zpl") "devices.zpl" eq_refl eq_refl).
  left. reflexivity.
Defined.

(** X16: a CONFIG that names a backing file [f] other than the file [g] the
    registry is bound to writes the records to [g] and replaces the registry
    by one that holds what [f] held before the command: records that are not
    in [f] are no longer in memory. *)
Theorem config_other_file_reloads (load : string -> option zconfig_t)
    (w : world) (payload : string) (rest : list string) (foo : zconfig_t)
    (f g : string) :
  load payload = Some foo →
  zconfig_resolve foo ["server"; "file"] = Some f →
  file (devices (self w)) = Some g →
  g ≠ f →
  ∃ w', zm_device_config load w (payload :: rest) = (0, w') ∧
        items (devices (self w')) = disk_read f (disk w) ∧
        file (devices (self w')) = Some f ∧
        disk_read g (disk w') = items (devices (self w)).
Proof.
  intros Hload Hf Hfile Hgf. unfold zm_device_config. rewrite Hload.
  unfold zm_device_cfg_file. cbn [set_config with_self self config].
  rewrite Hf.
  destruct w as [[po te ve co cl cs ms [fl it cu]] dk tr].
  cbn in Hfile. subst fl. cbn. eexists. split; [reflexivity|]. cbn.
  rewrite disk_read_write, disk_read_write_ne by done. done.
Qed.

Lemma config_other_file_reloads_witness :
  let w := actor_on "old.zpl" [device_v1 "device1" 7 1024] in
  ∃ w', zm_device_config sample_load w ["malamute+server"] = (0, w') ∧
        items (devices (self w')) = [] ∧
        file (devices (self w')) = Some "devices.zpl" ∧
        disk_read "old.zpl" (disk w') = [device_v1 "device1" 7 1024].
Proof.
  intros w.
  apply (config_other_file_reloads sample_load w "malamute+server" []
           (sample_config_file "devices.zpl") "devices.zpl" "old.zpl"
           eq_refl eq_refl eq_refl).
  discriminate.
Defined.

Section Loop.

Variable on_null : null_self.
Variable load : string -> option zconfig_t.
Variable cok : string -> string -> bool.
Variable pok : string -> bool.
Variable sok : string -> string -> bool.

Lemma loop_terminated (inputs : list wakeup) (w : world) :
  terminated (self w) = true →
  zm_device_loop on_null load cok pok sok inputs w = Ret w.
Proof. intros Ht. destruct inputs; cbn; by rewrite Ht. Qed.

Lemma loop_app (xs ys : list wakeup) :
  ∀ w : world,
    zm_device_loop on_null load cok pok sok (xs ++ ys) w =
    w' ← zm_device_loop on_null load cok pok sok xs w;
    zm_device_loop on_null load cok pok sok ys w'.
Proof.
  induction xs as [|x xs IH]; intros w; cbn.
  - destruct (terminated (self w)) eqn:Ht; cbn; [|done].
    by rewrite loop_terminated.
  - destruct (terminated (self w)) eqn:Ht; cbn.
    + by rewrite loop_terminated.
    + destruct (zm_device_round on_null load cok pok sok x w) as [w1|];
        cbn; [apply IH | done].
Qed.

(** X17: the command $TERM ends the actor: the wake-ups after it are never
    looked at, and the last thing the actor does is to write out the
    registry.  With a registry bound to a file, the file then holds the
    records; with a registry without a file nothing is written, so the
    records are lost with the actor. *)
Theorem term_ends_actor (files : list (string * list zm_proto_t))
    (before after : list wakeup) (frames : list string) (w : world) :
  zm_device_loop on_null load cok pok sok before (zm_device_new files) = Ret w →
  terminated (self w) = false →
  zm_device_actor on_null load cok pok sok files
    (before ++ OnPipe (Some ("$TERM" :: frames)) :: after)
  = Ret (Some (match file (devices (self w)) with
               | Some p => disk_write p (items (devices (self w))) (disk w)
               | None => disk w
               end,
               trace w ++ [DevicesStore (file (devices (self w)))
                             (items (devices (self w)))])).
Proof.
  intros Hrun Ht. unfold zm_device_actor.
  rewrite loop_app, Hrun. cbn [mbind outcome_bind zm_device_loop].
  rewrite Ht. cbn [zm_device_round zm_device_recv_api].
  repeat (rewrite decide_False by discriminate).
  rewrite decide_True by reflexivity. cbn [mbind outcome_bind].
  rewrite loop_terminated by reflexivity. reflexivity.
Qed.

(** X18: after STOP the actor has no client, and with the [assert (self)]
    of [mlm_client_msgpipe] the loop does not survive its next wake-up
    unless that is a command on the pipe: the test
    [which == mlm_client_msgpipe (self->client)] aborts the process. *)
Theorem wakeup_after_stop_aborts (w : world) (c : mlm_client_t)
    (frames : list string) (i : wakeup) (after : list wakeup) :
  on_null = NullAsserts →
  terminated (self w) = false →
  client (self w) = Some c →
  (∀ request, i ≠ OnPipe request) →
  zm_device_loop on_null load cok pok sok
    (OnPipe (Some ("STOP" :: frames)) :: i :: after) w
  = Abort AssertSelf.
Proof.
  intros -> Ht Hc Hi. cbn [zm_device_loop]. rewrite Ht.
  cbn [zm_device_round zm_device_recv_api].
  rewrite decide_False by discriminate.
  rewrite decide_True by reflexivity.
  rewrite (zm_device_stop_with_client NullAsserts w c Hc).
  cbn. rewrite Ht. destruct i as [request| |]; [by destruct (Hi request)|done..].
Qed.

End Loop.

Lemma term_ends_actor_witness :
  zm_device_actor NullAsserts sample_load always (fun _ => true) always []
    ([OnPipe (Some ["CONFIG"; "malamute+server"]);
      OnBroker (mailbox "writer" "INSERT" (device_v1 "device1" 7 1024))]
     ++ OnPipe (Some ["$TERM"]) :: [OnNothing])
  = Ret (Some ([("devices.zpl", [device_v1 "device1" 7 1024])],
               [DevicesStore (Some "devices.zpl") [];
                DevicesNew (Some "devices.zpl");
                DevicesInsert (device_v1 "device1" 7 1024);
                ClientSend "INSERT" (device_v1 "device1" 7 1024);
                ClientSendto "writer" "LOOKUP"
                  (zm_proto_encode_ok (device_v1 "device1" 7 1024))]
               ++ [DevicesStore (Some "devices.zpl")
                     [device_v1 "device1" 7 1024]])).
Proof.
  eassert (Hrun : zm_device_loop NullAsserts sample_load always
                    (fun _ => true) always
                    [OnPipe (Some ["CONFIG"; "malamute+server"]);
                     OnBroker (mailbox "writer" "INSERT"
                                 (device_v1 "device1" 7 1024))]
                    (zm_device_new []) = Ret _)
    by (vm_compute; reflexivity).
  exact (term_ends_actor NullAsserts sample_load always (fun _ => true) always
           [] _ [OnNothing] [] _ Hrun eq_refl).
Defined.

Lemma wakeup_after_stop_aborts_witness :
  zm_device_loop NullAsserts sample_load always (fun _ => true) always
    [OnPipe (Some ["STOP"]); OnNothing; OnPipe (Some ["$TERM"])]
    (zm_device_new [])
  = Abort AssertSelf.
Proof.
  apply (wakeup_after_stop_aborts NullAsserts sample_load always
           (fun _ => true) always (zm_device_new []) mlm_client_new);
    [reflexivity | reflexivity | reflexivity | discriminate].
Defined.

(** The run of the self test [zm_device_test], with any time stamp [t]:
    CONFIG, START, then INSERT, LOOKUP, GET-ALL and PUBLISH-ALL from the
    writer.  The writer gets the OK status, the record, and the record with
    [_seq] 0 and [_cnt] 1; the reader of the stream gets the record under
    INSERT and, under PUBLISH-ALL, the record with [_seq] 0 and [_cnt] 1. *)
Example zm_device_test_run (t : Z) :
  let d := device_v1 "device1" t 1024 in
  let tagged := ext_set_int "_seq" 0 (ext_set_int "_cnt" 1 d) in
  ∃ w, zm_device_loop NullAsserts sample_load always (fun _ => true) always
         [OnPipe (Some ["CONFIG"; "malamute"]);
          OnPipe (Some ["START"]);
          OnBroker (mailbox "writer" "INSERT" d);
          OnBroker (mailbox "writer" "LOOKUP" (device_v1 "device1" 0 0));
          OnBroker (mailbox "writer" "GET-ALL" (zm_proto_encode_ok zm_proto_new));
          OnBroker (mailbox "writer" "PUBLISH-ALL" (zm_proto_encode_ok zm_proto_new))]
         (zm_device_new []) = Ret w ∧
       trace w =
         [ClientConnect "inproc://zm-device-test" "it.zmon.device";
          ClientSetProducer "ZM_PROTO_DEVICE_STREAM";
          ClientSetConsumer "ZM_PROTO_DEVICE_STREAM" ".*";
          DevicesInsert d;
          ClientSend "INSERT" d;
          ClientSendto "writer" "LOOKUP" (zm_proto_encode_ok d);
          ClientSendto "writer" "LOOKUP" d;
          ClientSendto "writer" "GET-ALL" tagged;
          ClientSend "PUBLISH-ALL" tagged] ∧
       zm_proto_ext_int tagged "_seq" (-1) = 0 ∧
       zm_proto_ext_int tagged "_cnt" (-1) = 1.
Proof.
  intros d tagged. eexists. split; [vm_compute; reflexivity|].
  split; [vm_compute; reflexivity|]. split; vm_compute; reflexivity.
Qed.
